(** * Playwright MCP actor: a shallow embedding of [src/main.py] and
      [src/templates.py], and the properties of the action-dispatch engine.

    The browser engine (Playwright), the hosting platform (Apify) and the
    Python built-ins [str], [repr] and [int] are external to the repository.
    They are taken as parameters: an [Engine] record answers every call the
    code makes, from an abstract world [W] that the call may change.  Every
    call is written to a trace together with the answer it got, so that the
    order in which the code talks to the outside is a value one can reason
    about.

    Python values that travel through the code untyped (the run input, the
    fields of an action, the output of an action) are [JValue]s.  Floating
    point JSON numbers are left out; the two clock readings of
    [execute_action] are integers (milliseconds). *)

From Stdlib Require Import ZArith List String Ascii Bool Lia.
From Stdlib Require Import Decimal DecimalString.
Import ListNotations.
Open Scope string_scope.
Open Scope list_scope.

Set Implicit Arguments.
Set Warnings "-register-all".

(* ====================================================================== *)
(** ** Python values                                                       *)
(* ====================================================================== *)

Inductive JValue : Type :=
| JNull
| JBool (b : bool)
| JInt (z : Z)
| JStr (s : string)
| JList (l : list JValue)
| JObj (kv : list (string * JValue)).

(** Python truthiness: [None], [False], [0], the empty string, the empty
    list and the empty dict are false, everything else is true. *)
Definition truthy (v : JValue) : bool :=
  match v with
  | JNull => false
  | JBool b => b
  | JInt z => negb (Z.eqb z 0)
  | JStr s => negb (String.eqb s "")
  | JList l => match l with [] => false | _ :: _ => true end
  | JObj kv => match kv with [] => false | _ :: _ => true end
  end.

Definition is_None (v : JValue) : bool :=
  match v with JNull => true | _ => false end.

(** A dict is an association list with distinct keys, in insertion order;
    [lookup] is the dict's item access. *)
Fixpoint lookup (k : string) (kv : list (string * JValue)) : option JValue :=
  match kv with
  | [] => None
  | (k', v) :: rest => if String.eqb k k' then Some v else lookup k rest
  end.

(** [d.get(k, default)] on a dict. *)
Definition dict_get (kv : list (string * JValue)) (k : string) (default : JValue)
  : JValue :=
  match lookup k kv with
  | Some v => v
  | None => default
  end.

(** The name Python prints for the type of a value. *)
Definition type_name (v : JValue) : string :=
  match v with
  | JNull => "NoneType"
  | JBool _ => "bool"
  | JInt _ => "int"
  | JStr _ => "str"
  | JList _ => "list"
  | JObj _ => "dict"
  end.

(* ====================================================================== *)
(** ** Exceptions and the state-and-exception monad                        *)
(* ====================================================================== *)

Inductive ExcClass : Type :=
| PlaywrightTimeoutError
| PlaywrightError
| ValueError
| TypeError
| AttributeError
| OtherException.

(** [exc_msg e] is [str(e)]. *)
Record Exc : Type := mkExc { exc_class : ExcClass; exc_msg : string }.

Inductive Res (A : Type) : Type :=
| Ok (a : A)
| Raise (e : Exc).
Arguments Ok {A} a.
Arguments Raise {A} e.

(** A computation on a state [S]: it always hands back a state, also when it
    raises, because Python keeps every mutation done before the exception. *)
Definition M (S A : Type) : Type := S -> S * Res A.

Definition ret {S A} (a : A) : M S A := fun s => (s, Ok a).

Definition raise {S A} (e : Exc) : M S A := fun s => (s, Raise e).

Definition bind {S A B} (m : M S A) (k : A -> M S B) : M S B :=
  fun s =>
    match m s with
    | (s', Ok a) => k a s'
    | (s', Raise e) => (s', Raise e)
    end.

(** [try: m  except Exception as e: h e] *)
Definition try_except {S A} (m : M S A) (h : Exc -> M S A) : M S A :=
  fun s =>
    match m s with
    | (s', Ok a) => (s', Ok a)
    | (s', Raise e) => h e s'
    end.

Definition get {S} : M S S := fun s => (s, Ok s).
Definition modify {S} (f : S -> S) : M S unit := fun s => (f s, Ok tt).

Declare Scope py_scope.
Delimit Scope py_scope with py.
Notation "x <- m ;; k" := (bind m (fun x => k))
  (at level 61, m at next level, right associativity) : py_scope.
Notation "m ;;; k" := (bind m (fun _ => k))
  (at level 61, right associativity) : py_scope.
Open Scope py_scope.

Definition raise_ValueError {S A} (msg : string) : M S A :=
  raise (mkExc ValueError msg).

(** [obj.get(...)] on a value that may not be a dict. *)
Definition attr_error (v : JValue) (attr : string) : Exc :=
  mkExc AttributeError
        ("'" ++ type_name v ++ "' object has no attribute '" ++ attr ++ "'").

Definition py_get (v : JValue) (k : string) (default : JValue) : Res JValue :=
  match v with
  | JObj kv => Ok (dict_get kv k default)
  | _ => Raise (attr_error v "get")
  end.

Definition liftR {S A} (r : Res A) : M S A := fun s => (s, r).

(* ====================================================================== *)
(** ** Enumerations of [main.py]                                           *)
(* ====================================================================== *)

Inductive BrowserType : Type := CHROMIUM | FIREFOX | WEBKIT.

Definition BrowserType_value (b : BrowserType) : string :=
  match b with
  | CHROMIUM => "chromium"
  | FIREFOX => "firefox"
  | WEBKIT => "webkit"
  end.

Inductive ActionType : Type :=
| NAVIGATE | CLICK | TYPE | FILL | SELECT | CHECK | UNCHECK | SCREENSHOT
| EXTRACT_TEXT | EXTRACT_ATTRIBUTES | WAIT | SCROLL | HOVER | FOCUS
| PRESS_KEY | GET_HTML | EVALUATE | WAIT_FOR_ELEMENT | GET_TITLE | GET_URL
| GO_BACK | GO_FORWARD | RELOAD.

Definition ActionType_value (t : ActionType) : string :=
  match t with
  | NAVIGATE => "navigate"
  | CLICK => "click"
  | TYPE => "type"
  | FILL => "fill"
  | SELECT => "select"
  | CHECK => "check"
  | UNCHECK => "uncheck"
  | SCREENSHOT => "screenshot"
  | EXTRACT_TEXT => "extract_text"
  | EXTRACT_ATTRIBUTES => "extract_attributes"
  | WAIT => "wait"
  | SCROLL => "scroll"
  | HOVER => "hover"
  | FOCUS => "focus"
  | PRESS_KEY => "press_key"
  | GET_HTML => "get_html"
  | EVALUATE => "evaluate"
  | WAIT_FOR_ELEMENT => "wait_for_element"
  | GET_TITLE => "get_title"
  | GET_URL => "get_url"
  | GO_BACK => "go_back"
  | GO_FORWARD => "go_forward"
  | RELOAD => "reload"
  end.

Definition all_ActionType : list ActionType :=
  [NAVIGATE; CLICK; TYPE; FILL; SELECT; CHECK; UNCHECK; SCREENSHOT;
   EXTRACT_TEXT; EXTRACT_ATTRIBUTES; WAIT; SCROLL; HOVER; FOCUS; PRESS_KEY;
   GET_HTML; EVALUATE; WAIT_FOR_ELEMENT; GET_TITLE; GET_URL; GO_BACK;
   GO_FORWARD; RELOAD].

Inductive SelectorType : Type := CSS | XPATH | TEXT | ROLE | LABEL | AUTO.

Definition SelectorType_value (t : SelectorType) : string :=
  match t with
  | CSS => "css"
  | XPATH => "xpath"
  | TEXT => "text"
  | ROLE => "role"
  | LABEL => "label"
  | AUTO => "auto"
  end.

Definition all_SelectorType : list SelectorType :=
  [CSS; XPATH; TEXT; ROLE; LABEL; AUTO].

Definition all_BrowserType : list BrowserType := [CHROMIUM; FIREFOX; WEBKIT].

(** [Enum(x)]: the member whose value is [x], a [ValueError] when there is
    none (also when [x] is not a string). *)
Definition enum_of {T} (members : list T) (value : T -> string)
           (enum_name : string) (repr : JValue -> string) (x : JValue) : Res T :=
  let invalid :=
    Raise (mkExc ValueError (repr x ++ " is not a valid " ++ enum_name)) in
  match x with
  | JStr s =>
      match find (fun m => String.eqb (value m) s) members with
      | Some m => Ok m
      | None => invalid
      end
  | _ => invalid
  end.

(* ====================================================================== *)
(** ** The action and result data model                                    *)
(* ====================================================================== *)

(** The dataclass does not check its field types, so a field holds whatever
    the input dict held ([JNull] for [None]). *)
Record Action : Type := mkAction {
  type : ActionType;
  selector : JValue;
  value : JValue;
  selector_type : SelectorType;
  timeout : JValue;
  description : JValue;
  metadata : JValue
}.

Record ActionResult : Type := mkActionResult {
  success : bool;
  action : Action;
  output : JValue;
  error : option string;
  execution_time_ms : Z;
  screenshot_base64 : option string;
  timestamp : string
}.

Definition set_success (b : bool) (r : ActionResult) : ActionResult :=
  mkActionResult b (action r) (output r) (error r) (execution_time_ms r)
                 (screenshot_base64 r) (timestamp r).
Definition set_output (v : JValue) (r : ActionResult) : ActionResult :=
  mkActionResult (success r) (action r) v (error r) (execution_time_ms r)
                 (screenshot_base64 r) (timestamp r).
Definition set_error (e : string) (r : ActionResult) : ActionResult :=
  mkActionResult (success r) (action r) (output r) (Some e)
                 (execution_time_ms r) (screenshot_base64 r) (timestamp r).
Definition set_execution_time_ms (t : Z) (r : ActionResult) : ActionResult :=
  mkActionResult (success r) (action r) (output r) (error r) t
                 (screenshot_base64 r) (timestamp r).
Definition set_screenshot_base64 (b : string) (r : ActionResult) : ActionResult :=
  mkActionResult (success r) (action r) (output r) (error r)
                 (execution_time_ms r) (Some b) (timestamp r).

(** Truthiness of an [Optional[str]] attribute. *)
Definition truthy_opt (o : option string) : bool :=
  match o with
  | Some s => negb (String.eqb s "")
  | None => false
  end.

Definition opt_entry (k : string) (cond : bool) (v : JValue)
  : list (string * JValue) :=
  if cond then [(k, v)] else [].

(** [ActionResult.to_dict]: keys in insertion order. *)
Definition to_dict (r : ActionResult) : list (string * JValue) :=
  [ ("type", JStr (ActionType_value (type (action r))));
    ("success", JBool (success r));
    ("execution_time_ms", JInt (execution_time_ms r));
    ("output", output r);
    ("timestamp", JStr (timestamp r)) ]
  ++ opt_entry "selector" (truthy (selector (action r))) (selector (action r))
  ++ opt_entry "value" (truthy (value (action r))) (value (action r))
  ++ opt_entry "description" (truthy (description (action r)))
               (description (action r))
  ++ opt_entry "error" (truthy_opt (error r))
               (JStr (match error r with Some e => e | None => "" end))
  ++ opt_entry "has_screenshot" (truthy_opt (screenshot_base64 r)) (JBool true).

(* ====================================================================== *)
(** ** The outside world: Playwright, the platform, Python built-ins       *)
(* ====================================================================== *)

(** Handles of engine objects (the Playwright driver, a browser, a context,
    a page). *)
Definition Handle : Type := nat.

(** A locator is lazy: building it asks nothing of the page.
    [page.locator(s)] is [QSelector s], [page.get_by_text(v, exact=False)] is
    [QText v]. *)
Inductive Query : Type :=
| QSelector (s : string)
| QText (v : JValue).

Record Locator : Type := mkLocator { loc_page : Handle; loc_query : Query }.

(** Calls on the page. *)
Inductive PageCall : Type :=
| Goto (url : string)                 (* goto(url, wait_until="networkidle") *)
| Title
| Content
| EvaluateJs (script : string)
| GoBack
| GoForward
| Reload.

(** Calls on [locator.first]. *)
Inductive LocCall : Type :=
| WaitForVisible (timeout : JValue)   (* wait_for(state="visible", timeout) *)
| Click (timeout : JValue)
| TypeText (text : string)            (* type(text, delay=50) *)
| Fill (text : string)
| SelectOption (v : string)
| Check
| Uncheck
| Hover
| Focus
| Press (key : string)
| TextContent
| GetAttribute (name : string)
| InnerHtml.

Record Engine (W : Type) : Type := mkEngine {
  (* session provisioning *)
  playwright_start : W -> W * Res Handle;
  env_get : string -> W -> W * Res (option string);
  browser_launch : BrowserType -> JValue -> Handle -> W -> W * Res Handle;
  new_context : JValue -> Handle -> W -> W * Res Handle;
  add_init_script : Handle -> W -> W * Res unit;
  new_page : Handle -> W -> W * Res Handle;
  context_close : Handle -> W -> W * Res unit;
  browser_close : Handle -> W -> W * Res unit;
  playwright_stop : Handle -> W -> W * Res unit;
  (* the page *)
  page_call : Handle -> PageCall -> W -> W * Res JValue;
  page_url : Handle -> W -> string;
  page_screenshot : Handle -> W -> W * Res (list Byte.byte);
  loc_call : Locator -> LocCall -> W -> W * Res JValue;
  (* time: [asyncio.sleep(ms / 1000)], and [time.time() * 1000] *)
  sleep_ms : Z -> W -> W;
  time_ms : W -> Z;
  now_iso : W -> string;
  (* the export collaborator, [DataExporter] and [Actor.set_value] *)
  export_rows : string -> JValue -> W -> W * Res unit
}.

(** Python built-ins the code calls on untyped values. *)
Record Python : Type := mkPython {
  py_str : JValue -> string;
  py_repr : JValue -> string;
  py_int_of_str : string -> option Z
}.

(** What the code does that can be seen from outside, in the order it does
    it.  An engine call is recorded with its answer.  Of the log lines, the
    two that mark the start of a locator attempt and of an action are kept. *)
Inductive Event : Type :=
| EvStart (r : Res Handle)
| EvEnv (name : string)
| EvLaunch (b : BrowserType) (args : JValue) (r : Res Handle)
| EvNewContext (options : JValue) (r : Res Handle)
| EvInitScript (r : Res unit)
| EvNewPage (r : Res Handle)
| EvContextClose (h : Handle) (r : Res unit)
| EvBrowserClose (h : Handle) (r : Res unit)
| EvStop (h : Handle) (r : Res unit)
| EvPage (c : PageCall) (r : Res JValue)
| EvScreenshot (r : Res (list Byte.byte))
| EvLoc (l : Locator) (c : LocCall) (r : Res JValue)
| EvSleep (ms : Z)
| EvExport (format : string) (rows : JValue)
| EvLogTrying (strategy_name : string) (strategy_value : JValue)
| EvLogExecuting (i n : nat) (action_type : JValue)
| EvPush (data : JValue).                       (* Actor.push_data *)

(* ====================================================================== *)
(** ** Library functions with a fixed meaning                              *)
(* ====================================================================== *)

(** [str] of an integer. *)
Definition str_of_Z (z : Z) : string := NilZero.string_of_int (Z.to_int z).
Definition str_of_nat (n : nat) : string := NilZero.string_of_uint (Nat.to_uint n).

Definition b64_alphabet : string :=
  "ABCDEFGHIJKLMNOPQRSTUVWXYZabcdefghijklmnopqrstuvwxyz0123456789+/".

Definition b64_char (n : N) : ascii :=
  match String.get (N.to_nat n) b64_alphabet with
  | Some c => c
  | None => "="%char
  end.

(** [base64.b64encode(bs).decode('utf-8')] *)
Fixpoint b64encode (bs : list Byte.byte) : string :=
  match bs with
  | [] => ""
  | [a] =>
      let x := Byte.to_N a in
      String (b64_char (x / 4))
        (String (b64_char ((x mod 4) * 16)) "==")
  | [a; b] =>
      let x := Byte.to_N a in
      let y := Byte.to_N b in
      String (b64_char (x / 4))
        (String (b64_char ((x mod 4) * 16 + y / 16))
           (String (b64_char ((y mod 16) * 4)) "="))
  | a :: b :: c :: rest =>
      let x := Byte.to_N a in
      let y := Byte.to_N b in
      let z := Byte.to_N c in
      String (b64_char (x / 4))
        (String (b64_char ((x mod 4) * 16 + y / 16))
           (String (b64_char ((y mod 16) * 4 + z / 64))
              (String (b64_char (z mod 64)) (b64encode rest))))
  end%N.

Definition bindR {A B} (r : Res A) (k : A -> Res B) : Res B :=
  match r with
  | Ok a => k a
  | Raise e => Raise e
  end.

Notation "x <~ r ;; k" := (bindR r (fun x => k))
  (at level 61, r at next level, right associativity) : py_scope.

(** The double quote and the line feed, for the script texts. *)
Definition dq : string := String (ascii_of_nat 34) "".
Definition nl : string := String (ascii_of_nat 10) "".

Section WithEngine.

Variable W : Type.
Variable eng : Engine W.
Variable py : Python.

Record Sys : Type := mkSys { world : W; trace : list Event }.

(** An engine call: the world moves, the call and its answer are traced. *)
Definition call {A} (f : W -> W * Res A) (ev : Res A -> Event) : M Sys A :=
  fun s =>
    let (w', r) := f (world s) in
    (mkSys w' (trace s ++ [ev r]), r).

Definition emit (ev : Event) : M Sys unit :=
  fun s => (mkSys (world s) (trace s ++ [ev]), Ok tt).

Definition locator_call (l : Locator) (c : LocCall) : M Sys JValue :=
  call (loc_call eng l c) (EvLoc l c).

(** An attribute access on [self.page], which is [None] before launch. *)
Definition with_page {S A} (page : option Handle) (attr : string)
           (k : Handle -> M S A) : M S A :=
  match page with
  | Some h => k h
  | None => raise (attr_error JNull attr)
  end.

(* ====================================================================== *)
(** ** [LocatorStrategy.find_element]                                      *)
(* ====================================================================== *)

(** The strategy list built from [selector_type]. *)
Definition strategies (selector : JValue) (selector_type : SelectorType)
  : list (string * JValue) :=
  match selector_type with
  | AUTO => [("css", selector); ("xpath", selector);
             ("text", selector); ("role", selector)]
  | _ => [(SelectorType_value selector_type, selector)]
  end.

(** The [if/elif] chain of the loop body: the locator for a strategy name,
    [None] for the final [else: continue]. *)
Definition strategy_locator (page : option Handle) (strategy_name : string)
           (strategy_value : JValue) : M Sys (option Locator) :=
  if String.eqb strategy_name "css" then
    with_page page "locator" (fun h =>
      ret (Some (mkLocator h (QSelector ("css=" ++ py_str py strategy_value)))))
  else if String.eqb strategy_name "xpath" then
    with_page page "locator" (fun h =>
      ret (Some (mkLocator h (QSelector ("xpath=" ++ py_str py strategy_value)))))
  else if String.eqb strategy_name "text" then
    with_page page "get_by_text" (fun h =>
      ret (Some (mkLocator h (QText strategy_value))))
  else if String.eqb strategy_name "role" then
    with_page page "locator" (fun h =>
      ret (Some (mkLocator h (QSelector ("role=" ++ py_str py strategy_value)))))
  else ret None.

(** [except (PlaywrightTimeoutError, PlaywrightError)] *)
Definition is_playwright (e : Exc) : bool :=
  match exc_class e with
  | PlaywrightTimeoutError | PlaywrightError => true
  | _ => false
  end.

(** One turn of the loop body, inside its [try]: [Some l] is [return
    locator], [None] is [continue]. *)
Definition attempt (page : option Handle) (timeout : JValue)
           (strategy : string * JValue) : M Sys (option Locator) :=
  let (strategy_name, strategy_value) := strategy in
  try_except
    (emit (EvLogTrying strategy_name strategy_value) ;;;
     ol <- strategy_locator page strategy_name strategy_value ;;
     match ol with
     | None => ret None
     | Some locator =>
         locator_call locator (WaitForVisible timeout) ;;;
         ret (Some locator)
     end)
    (fun e => if is_playwright e then ret None else raise e).

Fixpoint try_strategies (page : option Handle) (timeout : JValue)
         (l : list (string * JValue)) : M Sys (option Locator) :=
  match l with
  | [] => ret None
  | strategy :: rest =>
      found <- attempt page timeout strategy ;;
      match found with
      | Some locator => ret (Some locator)
      | None => try_strategies page timeout rest
      end
  end.

Definition find_element (page : option Handle) (selector : JValue)
           (selector_type : SelectorType) (timeout : JValue)
  : M Sys (option Locator) :=
  try_strategies page timeout (strategies selector selector_type).

(* ====================================================================== *)
(** ** [BrowserController]                                                 *)
(* ====================================================================== *)

Record BrowserController : Type := mkController {
  browser_type : BrowserType;
  browser : option Handle;
  context : option Handle;
  page : option Handle;
  playwright : option Handle;
  action_count : nat;
  start_time : option string
}.

(** [BrowserController.__init__] *)
Definition new_controller (b : BrowserType) : BrowserController :=
  mkController b None None None None 0 None.

(** The state of one [execute_action]: the outside, and the [result] object
    the helpers mutate. *)
Record Frame : Type := mkFrame { sys : Sys; result : ActionResult }.

Definition lift {A} (m : M Sys A) : M Frame A :=
  fun f => let (s', r) := m (sys f) in (mkFrame s' (result f), r).

Definition update (g : ActionResult -> ActionResult) : M Frame unit :=
  modify (fun f => mkFrame (sys f) (g (result f))).

Definition page_do (self : BrowserController) (attr : string) (c : PageCall)
  : M Frame JValue :=
  with_page (page self) attr (fun h =>
    lift (call (page_call eng h c) (EvPage c))).

Definition on_first (l : Locator) (c : LocCall) : M Frame JValue :=
  lift (locator_call l c).

(** [int(v)] *)
Definition py_int (v : JValue) : Res Z :=
  match v with
  | JInt z => Ok z
  | JBool b => Ok (if b then 1%Z else 0%Z)
  | JStr s =>
      match py_int_of_str py s with
      | Some z => Ok z
      | None =>
          Raise (mkExc ValueError
                   ("invalid literal for int() with base 10: " ++ py_repr py v))
      end
  | _ =>
      Raise (mkExc TypeError
               ("int() argument must be a string, a bytes-like object or a real number, not '"
                  ++ type_name v ++ "'"))
  end.

(** The lines every selector-based helper repeats:
    [locator = await LocatorStrategy.find_element(self.page, action.selector,
    action.selector_type, action.timeout)] and
    [if not locator: raise ValueError(f"<not_found>: {action.selector}")]. *)
Definition locate (self : BrowserController) (a : Action) (not_found : string)
  : M Frame Locator :=
  ol <- lift (find_element (page self) (selector a) (selector_type a)
                           (timeout a)) ;;
  match ol with
  | Some locator => ret locator
  | None => raise_ValueError (not_found ++ ": " ++ py_str py (selector a))
  end.

Definition require_selector (a : Action) (msg : string) : M Frame unit :=
  if negb (truthy (selector a)) then raise_ValueError msg else ret tt.

Definition require_value_not_None (a : Action) (msg : string) : M Frame unit :=
  if is_None (value a) then raise_ValueError msg else ret tt.

Definition require_value (a : Action) (msg : string) : M Frame unit :=
  if negb (truthy (value a)) then raise_ValueError msg else ret tt.

Definition _navigate (self : BrowserController) (a : Action) : M Frame unit :=
  require_value a "Navigate action requires 'value' (URL)" ;;;
  page_do self "goto" (Goto (py_str py (value a))) ;;;
  update (set_success true) ;;;
  with_page (page self) "url" (fun h =>
    f <- get ;;
    update (set_output (JStr (page_url eng h (world (sys f)))))).

Definition _click (self : BrowserController) (a : Action) : M Frame unit :=
  require_selector a "Click action requires 'selector'" ;;;
  locator <- locate self a "Element not found" ;;
  on_first locator (Click (timeout a)) ;;;
  update (set_success true).

Definition _type (self : BrowserController) (a : Action) : M Frame unit :=
  require_selector a "Type action requires 'selector'" ;;;
  require_value_not_None a "Type action requires 'value' (text to type)" ;;;
  locator <- locate self a "Element not found" ;;
  on_first locator (TypeText (py_str py (value a))) ;;;
  update (set_success true).

Definition _fill (self : BrowserController) (a : Action) : M Frame unit :=
  require_selector a "Fill action requires 'selector'" ;;;
  require_value_not_None a "Fill action requires 'value'" ;;;
  locator <- locate self a "Element not found" ;;
  on_first locator (Fill (py_str py (value a))) ;;;
  update (set_success true).

Definition _select (self : BrowserController) (a : Action) : M Frame unit :=
  require_selector a "Select action requires 'selector'" ;;;
  require_value_not_None a "Select action requires 'value' (option value)" ;;;
  locator <- locate self a "Element not found" ;;
  on_first locator (SelectOption (py_str py (value a))) ;;;
  update (set_success true).

Definition _check (self : BrowserController) (a : Action) : M Frame unit :=
  require_selector a "Check action requires 'selector'" ;;;
  locator <- locate self a "Element not found" ;;
  on_first locator Check ;;;
  update (set_success true).

Definition _uncheck (self : BrowserController) (a : Action) : M Frame unit :=
  require_selector a "Uncheck action requires 'selector'" ;;;
  locator <- locate self a "Element not found" ;;
  on_first locator Uncheck ;;;
  update (set_success true).

Definition _screenshot (self : BrowserController) (a : Action) : M Frame unit :=
  try_except
    (screenshot_bytes <-
       with_page (page self) "screenshot" (fun h =>
         lift (call (page_screenshot eng h) EvScreenshot)) ;;
     update (set_screenshot_base64 (b64encode screenshot_bytes)) ;;;
     update (set_success true) ;;;
     update (set_output
               (JStr ("Screenshot captured ("
                        ++ str_of_nat (List.length screenshot_bytes)
                        ++ " bytes)"))))
    (fun e => raise_ValueError ("Screenshot failed: " ++ exc_msg e)).

Definition _extract_text (self : BrowserController) (a : Action) : M Frame unit :=
  if negb (truthy (selector a)) then
    content <- page_do self "content" Content ;;
    update (set_output content) ;;;
    update (set_success true)
  else
    locator <- locate self a "Element not found" ;;
    text <- on_first locator TextContent ;;
    update (set_output text) ;;;
    update (set_success true).

Definition _extract_attributes (self : BrowserController) (a : Action)
  : M Frame unit :=
  require_selector a "Extract attributes requires 'selector'" ;;;
  locator <- locate self a "Element not found" ;;
  v_text <- on_first locator TextContent ;;
  v_class <- on_first locator (GetAttribute "class") ;;
  v_id <- on_first locator (GetAttribute "id") ;;
  v_href <- on_first locator (GetAttribute "href") ;;
  v_src <- on_first locator (GetAttribute "src") ;;
  v_value <- on_first locator (GetAttribute "value") ;;
  v_placeholder <- on_first locator (GetAttribute "placeholder") ;;
  update (set_output
            (JObj [("text", v_text); ("class", v_class); ("id", v_id);
                   ("href", v_href); ("src", v_src); ("value", v_value);
                   ("placeholder", v_placeholder)])) ;;;
  update (set_success true).

Definition _wait (self : BrowserController) (a : Action) : M Frame unit :=
  require_value_not_None a "Wait action requires 'value' (milliseconds)" ;;;
  ms <- liftR (py_int (value a)) ;;
  lift (fun s => (mkSys (sleep_ms eng ms (world s)) (trace s ++ [EvSleep ms]),
                  Ok tt)) ;;;
  update (set_success true).

Definition _scroll (self : BrowserController) (a : Action) : M Frame unit :=
  (if is_None (value a) then
     page_do self "evaluate"
             (EvaluateJs "window.scrollTo(0, document.body.scrollHeight)") ;;;
     ret tt
   else
     pixels <- liftR (py_int (value a)) ;;
     page_do self "evaluate"
             (EvaluateJs ("window.scrollBy(0, " ++ str_of_Z pixels ++ ")")) ;;;
     ret tt) ;;;
  update (set_success true).

Definition _hover (self : BrowserController) (a : Action) : M Frame unit :=
  require_selector a "Hover action requires 'selector'" ;;;
  locator <- locate self a "Element not found" ;;
  on_first locator Hover ;;;
  update (set_success true).

Definition _focus (self : BrowserController) (a : Action) : M Frame unit :=
  require_selector a "Focus action requires 'selector'" ;;;
  locator <- locate self a "Element not found" ;;
  on_first locator Focus ;;;
  update (set_success true).

Definition _press_key (self : BrowserController) (a : Action) : M Frame unit :=
  require_selector a "Press key action requires 'selector'" ;;;
  require_value a "Press key action requires 'value' (key name)" ;;;
  locator <- locate self a "Element not found" ;;
  on_first locator (Press (py_str py (value a))) ;;;
  update (set_success true).

Definition _get_html (self : BrowserController) (a : Action) : M Frame unit :=
  (if negb (truthy (selector a)) then
     content <- page_do self "content" Content ;;
     update (set_output content)
   else
     locator <- locate self a "Element not found" ;;
     html <- on_first locator InnerHtml ;;
     update (set_output html)) ;;;
  update (set_success true).

Definition _evaluate (self : BrowserController) (a : Action) : M Frame unit :=
  require_value a "Evaluate action requires 'value' (JavaScript code)" ;;;
  v <- page_do self "evaluate" (EvaluateJs (py_str py (value a))) ;;
  update (set_output v) ;;;
  update (set_success true).

Definition _wait_for_element (self : BrowserController) (a : Action)
  : M Frame unit :=
  require_selector a "Wait for element requires 'selector'" ;;;
  locate self a "Element not found or timeout" ;;;
  update (set_success true).

(** The [if/elif] chain of [execute_action].  Its last [else] (unknown action
    type) has no case here: [ActionType] has no other member. *)
Definition dispatch (self : BrowserController) (a : Action) : M Frame unit :=
  match type a with
  | NAVIGATE => _navigate self a
  | CLICK => _click self a
  | TYPE => _type self a
  | FILL => _fill self a
  | SELECT => _select self a
  | CHECK => _check self a
  | UNCHECK => _uncheck self a
  | SCREENSHOT => _screenshot self a
  | EXTRACT_TEXT => _extract_text self a
  | EXTRACT_ATTRIBUTES => _extract_attributes self a
  | WAIT => _wait self a
  | SCROLL => _scroll self a
  | HOVER => _hover self a
  | FOCUS => _focus self a
  | PRESS_KEY => _press_key self a
  | GET_HTML => _get_html self a
  | EVALUATE => _evaluate self a
  | WAIT_FOR_ELEMENT => _wait_for_element self a
  | GET_TITLE =>
      v <- page_do self "title" Title ;;
      update (set_output v) ;;;
      update (set_success true)
  | GET_URL =>
      with_page (page self) "url" (fun h =>
        f <- get ;;
        update (set_output (JStr (page_url eng h (world (sys f)))))) ;;;
      update (set_success true)
  | GO_BACK => page_do self "go_back" GoBack ;;; update (set_success true)
  | GO_FORWARD => page_do self "go_forward" GoForward ;;; update (set_success true)
  | RELOAD => page_do self "reload" Reload ;;; update (set_success true)
  end.

Definition incr_action_count (c : BrowserController) : BrowserController :=
  mkController (browser_type c) (browser c) (context c) (page c)
               (playwright c) (S (action_count c)) (start_time c).

(** [execute_action]: the controller after the call and the result.  The
    function has no exception of its own to raise: whatever [dispatch]
    raises ends in [result.error]. *)
Definition execute_action (self : BrowserController) (a : Action) (s : Sys)
  : Sys * (BrowserController * ActionResult) :=
  let t0 := time_ms eng (world s) in
  let result0 :=
    mkActionResult false a JNull None 0 None (now_iso eng (world s)) in
  let (f, r) := dispatch self a (mkFrame s result0) in
  let self' := match r with
               | Ok _ => incr_action_count self
               | Raise _ => self
               end in
  let result1 := match r with
                 | Ok _ => result f
                 | Raise e => set_error (exc_msg e) (result f)
                 end in
  let t1 := time_ms eng (world (sys f)) in
  (sys f, (self', set_execution_time_ms (t1 - t0)%Z result1)).

(* ====================================================================== *)
(** ** [BrowserController.launch] and [close]                              *)
(* ====================================================================== *)

Definition is_str (v : JValue) (s : string) : bool :=
  match v with
  | JStr s' => String.eqb s' s
  | _ => false
  end.

Definition chars_of (s : string) : list string :=
  map (fun c => String c "") (list_ascii_of_string s).

Fixpoint all_str (l : list JValue) : option (list string) :=
  match l with
  | [] => Some []
  | JStr s :: rest =>
      match all_str rest with
      | Some ss => Some (s :: ss)
      | None => None
      end
  | _ :: _ => None
  end.

(** [",".join(v)] for a truthy [v]. *)
Definition join_comma (v : JValue) : Res string :=
  match v with
  | JList l =>
      match all_str l with
      | Some ss => Ok (String.concat "," ss)
      | None =>
          Raise (mkExc TypeError "sequence item: expected str instance")
      end
  | JStr s => Ok (String.concat "," (chars_of s))
  | JObj kv => Ok (String.concat "," (map fst kv))
  | _ => Raise (mkExc TypeError "can only join an iterable")
  end.

Definition set_playwright (h : Handle) (c : BrowserController) :=
  mkController (browser_type c) (browser c) (context c) (page c) (Some h)
               (action_count c) (start_time c).
Definition set_browser (h : Handle) (c : BrowserController) :=
  mkController (browser_type c) (Some h) (context c) (page c) (playwright c)
               (action_count c) (start_time c).
Definition set_context (h : Handle) (c : BrowserController) :=
  mkController (browser_type c) (browser c) (Some h) (page c) (playwright c)
               (action_count c) (start_time c).
Definition set_page (h : Handle) (c : BrowserController) :=
  mkController (browser_type c) (browser c) (context c) (Some h) (playwright c)
               (action_count c) (start_time c).
Definition set_start_time (t : string) (c : BrowserController) :=
  mkController (browser_type c) (browser c) (context c) (page c) (playwright c)
               (action_count c) (Some t).

(** The state of a method of the controller: the outside and [self]. *)
Record Ctl : Type := mkCtl { ctl_sys : Sys; ctl_self : BrowserController }.

Definition outside {A} (m : M Sys A) : M Ctl A :=
  fun c => let (s', r) := m (ctl_sys c) in (mkCtl s' (ctl_self c), r).

Definition assign (g : BrowserController -> BrowserController) : M Ctl unit :=
  modify (fun c => mkCtl (ctl_sys c) (g (ctl_self c))).

(** An attribute access on a field that is [None] until it is assigned. *)
Definition deref {S A} (field : option Handle) (attr : string)
           (k : Handle -> M S A) : M S A :=
  match field with
  | Some h => k h
  | None => raise (attr_error JNull attr)
  end.

Definition env_default (name default : string) : M Ctl string :=
  v <- outside (call (env_get eng name) (fun _ => EvEnv name)) ;;
  ret (match v with Some x => x | None => default end).

(** The Apify branch of the proxy configuration, the body of its [try]. *)
Definition apify_proxy_config (proxy : JValue) : M Ctl JValue :=
  apify_proxy_url <- env_default "APIFY_PROXY_HOSTNAME" "proxy.apify.com" ;;
  apify_proxy_password <- env_default "APIFY_PROXY_PASSWORD" "" ;;
  if negb (String.eqb apify_proxy_password "") then
    groups <- liftR (py_get proxy "apify_proxy_groups" (JList [])) ;;
    groups_str <- (if truthy groups then liftR (join_comma groups) else ret "") ;;
    ret (JObj [("server", JStr ("http://" ++ apify_proxy_url ++ ":8000"));
               ("username",
                JStr (if negb (String.eqb groups_str "")
                      then "groups-" ++ groups_str else "auto"));
               ("password", JStr apify_proxy_password)])
  else ret JNull.

Definition proxy_flag (proxy : JValue) (key : string) : M Ctl bool :=
  if truthy proxy then
    v <- liftR (py_get proxy key JNull) ;;
    ret (truthy v)
  else ret false.

Definition user_agent : string :=
  "Mozilla/5.0 (Macintosh; Intel Mac OS X 10_15_7) AppleWebKit/537.36 (KHTML, like Gecko) Chrome/120.0.0.0 Safari/537.36".

Definition launch (headless proxy stealth_mode : JValue) : M Ctl unit :=
  try_except
    (pw <- outside (call (playwright_start eng) EvStart) ;;
     assign (set_playwright pw) ;;;
     let launch_args :=
       [("headless", headless);
        ("args", JList [JStr "--disable-blink-features=AutomationControlled";
                        JStr "--disable-dev-shm-usage"])] in
     use_apify <- proxy_flag proxy "use_apify_proxy" ;;
     proxy_config <-
       (if use_apify then
          try_except (apify_proxy_config proxy) (fun _ => ret JNull)
        else
          custom <- proxy_flag proxy "custom_proxy_url" ;;
          if custom then
            url <- liftR (py_get proxy "custom_proxy_url" JNull) ;;
            ret (JObj [("server", url)])
          else ret JNull) ;;
     let launch_args :=
       launch_args ++ opt_entry "proxy" (truthy proxy_config) proxy_config in
     self <- get ;;
     b <- deref (playwright (ctl_self self)) "chromium" (fun h =>
            outside (call (browser_launch eng (browser_type (ctl_self self))
                                          (JObj launch_args) h)
                          (EvLaunch (browser_type (ctl_self self))
                                    (JObj launch_args)))) ;;
     assign (set_browser b) ;;;
     let context_options :=
       [("viewport", JObj [("width", JInt 1920); ("height", JInt 1080)]);
        ("user_agent", JStr user_agent);
        ("locale", JStr "en-US");
        ("timezone_id", JStr "America/New_York")]
       ++ opt_entry "proxy" (truthy proxy_config) proxy_config in
     cx <- outside (call (new_context eng (JObj context_options) b)
                         (EvNewContext (JObj context_options))) ;;
     assign (set_context cx) ;;;
     (if truthy stealth_mode
      then outside (call (add_init_script eng cx) EvInitScript)
      else ret tt) ;;;
     pg <- outside (call (new_page eng cx) EvNewPage) ;;
     assign (set_page pg) ;;;
     c <- get ;;
     assign (set_start_time (now_iso eng (world (ctl_sys c)))))
    (fun e => raise e).

(** [close]: whatever a release call raises is logged and dropped; no field
    of the controller is written. *)
Definition close (self : BrowserController) : M Sys unit :=
  try_except
    ((match context self with
      | Some h => call (context_close eng h) (EvContextClose h)
      | None => ret tt
      end) ;;;
     (match browser self with
      | Some h => call (browser_close eng h) (EvBrowserClose h)
      | None => ret tt
      end) ;;;
     (match playwright self with
      | Some h => call (playwright_stop eng h) (EvStop h)
      | None => ret tt
      end))
    (fun _ => ret tt).

(* ====================================================================== *)
(** ** [templates.py]: [TemplateManager]                                   *)
(* ====================================================================== *)

Definition required (v : JValue) (msg : string) : Res unit :=
  if negb (truthy v) then Raise (mkExc ValueError msg) else Ok tt.

Definition _amazon_product_search (params : JValue) : Res (list JValue) :=
  search_query <~ py_get params "search_query" (JStr "") ;;
  max_results <~ py_get params "max_results" (JInt 20) ;;
  extract_reviews <~ py_get params "extract_reviews" (JBool false) ;;
  _ <~ required search_query
       "search_query is required for amazon_product_search template" ;;
  Ok
    [JObj [("type", JStr "navigate");
               ("value", JStr "https://www.amazon.com")];
         JObj [("type", JStr "fill");
               ("selector", JStr "input[name='field-keywords']");
               ("value", search_query)];
         JObj [("type", JStr "press_key");
               ("selector", JStr "input[name='field-keywords']");
               ("value", JStr "Enter")];
         JObj [("type", JStr "wait_for_element");
               ("selector", JStr ".s-result-item[data-component-type='s-search-result']");
               ("timeout", JInt 10000)];
         JObj [("type", JStr "evaluate");
               ("value", JStr (nl
               ++ "                Array.from(document.querySelectorAll('.s-result-item[data-component-type=" ++ dq ++ "s-search-result" ++ dq ++ "]'))" ++ nl
               ++ "                    .slice(0, " ++ py_str py max_results ++ ")" ++ nl
               ++ "                    .map(item => ({" ++ nl
               ++ "                        title: item.querySelector('h2 a span')?.innerText || ''," ++ nl
               ++ "                        price: item.querySelector('.a-price-whole')?.innerText || 'N/A'," ++ nl
               ++ "                        rating: item.querySelector('.a-icon-alt')?.innerText || 'N/A'," ++ nl
               ++ "                        reviews: item.querySelector('.a-size-base.s-underline-text')?.innerText || '0'," ++ nl
               ++ "                        url: item.querySelector('h2 a')?.href || ''," ++ nl
               ++ "                        image: item.querySelector('img.s-image')?.src || ''," ++ nl
               ++ "                        asin: item.getAttribute('data-asin') || ''" ++ nl
               ++ "                    }))" ++ nl
               ++ "                "))];
         JObj [("type", JStr "screenshot")]].

Definition _google_search (params : JValue) : Res (list JValue) :=
  search_query <~ py_get params "search_query" (JStr "") ;;
  max_results <~ py_get params "max_results" (JInt 10) ;;
  _ <~ required search_query
       "search_query is required for google_search template" ;;
  Ok
    [JObj [("type", JStr "navigate");
               ("value", JStr ("https://www.google.com/search?q=" ++ py_str py search_query))];
         JObj [("type", JStr "wait_for_element");
               ("selector", JStr "#search");
               ("timeout", JInt 10000)];
         JObj [("type", JStr "evaluate");
               ("value", JStr (nl
               ++ "                Array.from(document.querySelectorAll('.g'))" ++ nl
               ++ "                    .slice(0, " ++ py_str py max_results ++ ")" ++ nl
               ++ "                    .map(item => ({" ++ nl
               ++ "                        title: item.querySelector('h3')?.innerText || ''," ++ nl
               ++ "                        url: item.querySelector('a')?.href || ''," ++ nl
               ++ "                        description: item.querySelector('.VwiC3b')?.innerText || ''" ++ nl
               ++ "                    }))" ++ nl
               ++ "                "))];
         JObj [("type", JStr "screenshot")]].

Definition _linkedin_profile (params : JValue) : Res (list JValue) :=
  profile_url <~ py_get params "profile_url" (JStr "") ;;
  _ <~ required profile_url
       "profile_url is required for linkedin_profile template" ;;
  Ok
    [JObj [("type", JStr "navigate");
               ("value", profile_url)];
         JObj [("type", JStr "wait_for_element");
               ("selector", JStr ".pv-top-card");
               ("timeout", JInt 15000)];
         JObj [("type", JStr "evaluate");
               ("value", JStr (nl
               ++ "                {" ++ nl
               ++ "                    name: document.querySelector('.pv-top-card--list li:first-child')?.innerText || ''," ++ nl
               ++ "                    headline: document.querySelector('.pv-top-card--list li:nth-child(2)')?.innerText || ''," ++ nl
               ++ "                    location: document.querySelector('.pv-top-card--list.pv-top-card--list-bullet li:first-child')?.innerText || ''," ++ nl
               ++ "                    connections: document.querySelector('.pv-top-card--list.pv-top-card--list-bullet li:nth-child(2)')?.innerText || ''," ++ nl
               ++ "                    about: document.querySelector('.pv-about__summary-text')?.innerText || ''" ++ nl
               ++ "                }" ++ nl
               ++ "                "))];
         JObj [("type", JStr "screenshot")]].

Definition _twitter_scrape (params : JValue) : Res (list JValue) :=
  username <~ py_get params "username" (JStr "") ;;
  max_tweets <~ py_get params "max_tweets" (JInt 10) ;;
  _ <~ required username
       "username is required for twitter_scrape template" ;;
  Ok
    [JObj [("type", JStr "navigate");
               ("value", JStr ("https://twitter.com/" ++ py_str py username))];
         JObj [("type", JStr "wait_for_element");
               ("selector", JStr "article");
               ("timeout", JInt 10000)];
         JObj [("type", JStr "scroll");
               ("value", JStr "1000")];
         JObj [("type", JStr "wait");
               ("value", JStr "2000")];
         JObj [("type", JStr "evaluate");
               ("value", JStr (nl
               ++ "                Array.from(document.querySelectorAll('article'))" ++ nl
               ++ "                    .slice(0, " ++ py_str py max_tweets ++ ")" ++ nl
               ++ "                    .map(tweet => ({" ++ nl
               ++ "                        text: tweet.querySelector('[data-testid=" ++ dq ++ "tweetText" ++ dq ++ "]')?.innerText || ''," ++ nl
               ++ "                        timestamp: tweet.querySelector('time')?.getAttribute('datetime') || ''," ++ nl
               ++ "                        likes: tweet.querySelector('[data-testid=" ++ dq ++ "like" ++ dq ++ "]')?.innerText || '0'," ++ nl
               ++ "                        retweets: tweet.querySelector('[data-testid=" ++ dq ++ "retweet" ++ dq ++ "]')?.innerText || '0'," ++ nl
               ++ "                        replies: tweet.querySelector('[data-testid=" ++ dq ++ "reply" ++ dq ++ "]')?.innerText || '0'" ++ nl
               ++ "                    }))" ++ nl
               ++ "                "))];
         JObj [("type", JStr "screenshot")]].

Definition _google_maps_business (params : JValue) : Res (list JValue) :=
  search_query <~ py_get params "search_query" (JStr "") ;;
  location <~ py_get params "location" (JStr "") ;;
  _ <~ required search_query
       "search_query is required for google_maps_business template" ;;
  let search_url : string :=
    ("https://www.google.com/maps/search/" ++ py_str py search_query)%string in
  let search_url : string :=
    if truthy location then (search_url ++ "+" ++ py_str py location)%string
    else search_url in
  Ok
    [JObj [("type", JStr "navigate");
               ("value", JStr search_url)];
         JObj [("type", JStr "wait_for_element");
               ("selector", JStr "[role='article']");
               ("timeout", JInt 10000)];
         JObj [("type", JStr "wait");
               ("value", JStr "3000")];
         JObj [("type", JStr "evaluate");
               ("value", JStr (nl
               ++ "                Array.from(document.querySelectorAll('[role=" ++ dq ++ "article" ++ dq ++ "]'))" ++ nl
               ++ "                    .slice(0, 20)" ++ nl
               ++ "                    .map(item => ({" ++ nl
               ++ "                        name: item.querySelector('.fontHeadlineSmall')?.innerText || ''," ++ nl
               ++ "                        rating: item.querySelector('.MW4etd')?.innerText || 'N/A'," ++ nl
               ++ "                        reviews: item.querySelector('.UY7F9')?.innerText || '0'," ++ nl
               ++ "                        address: item.querySelector('.W4Efsd:nth-of-type(2)')?.innerText || ''," ++ nl
               ++ "                        type: item.querySelector('.W4Efsd:first-of-type')?.innerText || ''," ++ nl
               ++ "                        phone: item.querySelector('[data-tooltip=" ++ dq ++ "Copy phone number" ++ dq ++ "]')?.innerText || ''" ++ nl
               ++ "                    }))" ++ nl
               ++ "                "))];
         JObj [("type", JStr "screenshot")]].

(** [TemplateManager.get_template] *)
Definition get_template (template_type : JValue) (params : JValue)
  : Res (list JValue) :=
  if is_str template_type "amazon_product_search" then
    _amazon_product_search params
  else if is_str template_type "google_search" then
    _google_search params
  else if is_str template_type "linkedin_profile" then
    _linkedin_profile params
  else if is_str template_type "twitter_scrape" then
    _twitter_scrape params
  else if is_str template_type "google_maps_business" then
    _google_maps_business params
  else
    Raise (mkExc ValueError ("Unknown template: " ++ py_str py template_type)).

(** [TemplateManager.list_templates] *)
Definition list_templates : list JValue :=
  [JObj [("name", JStr "amazon_product_search");
         ("description", JStr "Search Amazon products and extract details");
         ("parameters", JList [JStr "search_query"; JStr "max_results";
                               JStr "extract_reviews"])];
   JObj [("name", JStr "google_search");
         ("description", JStr "Perform Google search and extract results");
         ("parameters", JList [JStr "search_query"; JStr "max_results"])];
   JObj [("name", JStr "linkedin_profile");
         ("description", JStr "Extract LinkedIn profile information");
         ("parameters", JList [JStr "profile_url"])];
   JObj [("name", JStr "twitter_scrape");
         ("description", JStr "Scrape tweets from a Twitter/X profile");
         ("parameters", JList [JStr "username"; JStr "max_tweets"])];
   JObj [("name", JStr "google_maps_business");
         ("description", JStr "Search and extract Google Maps business listings");
         ("parameters", JList [JStr "search_query"; JStr "location"])]].

(* ====================================================================== *)
(** ** [PlaywrightMCPActor]: the run orchestrator                          *)
(* ====================================================================== *)

Record Stats : Type := mkStats {
  total_actions : nat;
  successful_actions : nat;
  failed_actions : nat;
  total_execution_time_ms : Z;
  screenshots_captured : nat
}.

Definition stats_dict (st : Stats) : JValue :=
  JObj [("total_actions", JInt (Z.of_nat (total_actions st)));
        ("successful_actions", JInt (Z.of_nat (successful_actions st)));
        ("failed_actions", JInt (Z.of_nat (failed_actions st)));
        ("total_execution_time_ms", JInt (total_execution_time_ms st));
        ("screenshots_captured", JInt (Z.of_nat (screenshots_captured st)))].

Record PlaywrightMCPActor : Type := mkActor {
  controller : option BrowserController;
  results : list ActionResult;
  stats : Stats
}.

(** [PlaywrightMCPActor.__init__] *)
Definition new_actor : PlaywrightMCPActor :=
  mkActor None [] (mkStats 0 0 0 0 0).

(** The state of [run]: the outside and [self]. *)
Record Run : Type := mkRun { run_sys : Sys; run_self : PlaywrightMCPActor }.

Definition sysop {A} (m : M Sys A) : M Run A :=
  fun r => let (s', x) := m (run_sys r) in (mkRun s' (run_self r), x).

Definition push_data (data : JValue) : M Run unit := sysop (emit (EvPush data)).

Definition set_controller (c : BrowserController) (self : PlaywrightMCPActor)
  : PlaywrightMCPActor :=
  mkActor (Some c) (results self) (stats self).

(** A method call on [self.controller]; the controller keeps what the method
    wrote to it, also when the method raises. *)
Definition on_controller {A} (method : string) (m : M Ctl A) : M Run A :=
  fun r =>
    match controller (run_self r) with
    | None => (r, Raise (attr_error JNull method))
    | Some c =>
        let (c', x) := m (mkCtl (run_sys r) c) in
        (mkRun (ctl_sys c') (set_controller (ctl_self c') (run_self r)), x)
    end.

(** [try: m  finally: fin] *)
Definition try_finally {S A} (m : M S A) (fin : M S unit) : M S A :=
  fun s =>
    match m s with
    | (s', x) =>
        match fin s' with
        | (s'', Ok _) => (s'', x)
        | (s'', Raise e) => (s'', Raise e)
        end
    end.

(** The demo input [run] falls back to. *)
Definition default_actions : list JValue :=
  [JObj [("type", JStr "navigate");
         ("value", JStr "https://example.com");
         ("description", JStr "Navigate to example.com for testing")];
   JObj [("type", JStr "get_title");
         ("description", JStr "Get page title to verify page load")];
   JObj [("type", JStr "extract_text");
         ("selector", JStr "h1");
         ("description", JStr "Extract heading text")];
   JObj [("type", JStr "screenshot");
         ("description", JStr "Capture screenshot to verify rendering")]].

Definition default_input : JValue :=
  JObj [("browser_type", JStr "chromium");
        ("headless", JBool true);
        ("stealth_mode", JBool false);
        ("actions", JList default_actions)].

(** The test that guards the fallback: [actor_input is None or not
    actor_input or (isinstance(actor_input, dict) and not
    actor_input.get("actions"))]. *)
Definition uses_default (actor_input : JValue) : bool :=
  is_None actor_input
  || negb (truthy actor_input)
  || match actor_input with
     | JObj kv => negb (truthy (dict_get kv "actions" JNull))
     | _ => false
     end.

(** The input the rest of [run] works on. *)
Definition effective_input (actor_input : JValue) : JValue :=
  if uses_default actor_input then default_input else actor_input.

(** [_validate_input], on the dict it is given. *)
Definition _validate_input (actor_input : list (string * JValue)) : Res unit :=
  if negb (truthy (JObj actor_input)) then
    Raise (mkExc ValueError "Input cannot be empty")
  else
    match lookup "actions" actor_input with
    | None => Raise (mkExc ValueError "Input must contain 'actions' array")
    | Some (JList l) =>
        if Nat.eqb (List.length l) 0
        then Raise (mkExc ValueError "'actions' array cannot be empty")
        else Ok tt
    | Some _ => Raise (mkExc ValueError "'actions' must be an array")
    end.

Definition _parse_action (action_data : JValue) : Res Action :=
  t <~ py_get action_data "type" JNull ;;
  action_type <~ enum_of all_ActionType ActionType_value "ActionType"
                         (py_repr py) t ;;
  st <~ py_get action_data "selector_type" (JStr "auto") ;;
  selector_type <~ enum_of all_SelectorType SelectorType_value "SelectorType"
                           (py_repr py) st ;;
  v_selector <~ py_get action_data "selector" JNull ;;
  v_value <~ py_get action_data "value" JNull ;;
  v_timeout <~ py_get action_data "timeout" (JInt 10000) ;;
  v_description <~ py_get action_data "description" JNull ;;
  v_metadata <~ py_get action_data "metadata" JNull ;;
  Ok (mkAction action_type v_selector v_value selector_type v_timeout
               v_description v_metadata).

(** The statistics after one more result. *)
Definition update_stats (result : ActionResult) (st : Stats) : Stats :=
  let total := S (total_actions st) in
  let successful :=
    if success result then S (successful_actions st) else successful_actions st in
  let failed :=
    if success result then failed_actions st else S (failed_actions st) in
  let screenshots :=
    if truthy_opt (screenshot_base64 result)
    then S (screenshots_captured st) else screenshots_captured st in
  mkStats total successful failed
          (total_execution_time_ms st + execution_time_ms result)%Z
          screenshots.

Definition record_result (result : ActionResult) (self : PlaywrightMCPActor)
  : PlaywrightMCPActor :=
  mkActor (controller self) (results self ++ [result])
          (update_stats result (stats self)).

(** One turn of the loop of [run], for the [i]-th of [n] entries. *)
Definition run_action (n i : nat) (action_data : JValue) : M Run unit :=
  t <- liftR (py_get action_data "type" JNull) ;;
  sysop (emit (EvLogExecuting i n t)) ;;;
  a <- liftR (_parse_action action_data) ;;
  result <- on_controller "execute_action" (fun c =>
              let (s', cr) := execute_action (ctl_self c) a (ctl_sys c) in
              (mkCtl s' (fst cr), Ok (snd cr))) ;;
  modify (fun r => mkRun (run_sys r) (record_result result (run_self r))) ;;;
  push_data (JObj [("type", JStr "action_result");
                   ("data", JObj (to_dict result))]).

Fixpoint run_actions (n i : nat) (actions_data : list JValue) : M Run unit :=
  match actions_data with
  | [] => ret tt
  | action_data :: rest =>
      run_action n i action_data ;;;
      run_actions n (S i) rest
  end.

Definition prepare_output (self : PlaywrightMCPActor) (now : string) : JValue :=
  JObj [("success", JBool (Nat.eqb (failed_actions (stats self)) 0));
        ("stats", stats_dict (stats self));
        ("actions", JList (map (fun r => JObj (to_dict r)) (results self)));
        ("timestamp", JStr now)].

Definition _prepare_output : M Run JValue :=
  r <- get ;;
  ret (prepare_output (run_self r) (now_iso eng (world (run_sys r)))).

(** A row of the export: a fixed subset of the fields of an action record,
    [output] cut to 500 characters. *)
Definition flat_action (a : JValue) : Res JValue :=
  v_type <~ py_get a "type" JNull ;;
  v_selector <~ py_get a "selector" JNull ;;
  v_success <~ py_get a "success" JNull ;;
  v_time <~ py_get a "execution_time_ms" JNull ;;
  v_timestamp <~ py_get a "timestamp" JNull ;;
  v_error <~ py_get a "error" JNull ;;
  v_output <~ py_get a "output" (JStr "") ;;
  Ok (JObj [("type", v_type); ("selector", v_selector);
            ("success", v_success); ("execution_time_ms", v_time);
            ("timestamp", v_timestamp); ("error", v_error);
            ("output", JStr (substring 0 500 (py_str py v_output)))]).

Fixpoint flat_actions (l : list JValue) : Res (list JValue) :=
  match l with
  | [] => Ok []
  | a :: rest =>
      row <~ flat_action a ;;
      rows <~ flat_actions rest ;;
      Ok (row :: rows)
  end.

(** [_export_data]: the encoding itself is the export collaborator's; a
    failure of the export is logged and dropped. *)
Definition _export_data (data : JValue) (export_format : JValue) : M Run unit :=
  try_except
    (actions <- liftR (py_get data "actions" (JList [])) ;;
     rows <- liftR (match actions with
                    | JList l => flat_actions l
                    | _ => Raise (mkExc TypeError "object is not iterable")
                    end) ;;
     if is_str export_format "csv" then
       sysop (call (export_rows eng "csv" (JList rows))
                   (fun _ => EvExport "csv" (JList rows)))
     else if is_str export_format "excel" then
       sysop (call (export_rows eng "excel" (JList rows))
                   (fun _ => EvExport "excel" (JList rows)))
     else ret tt)
    (fun _ => ret tt).

(** The action list of the run: generated from the template when the input
    names one, the input's own [actions] otherwise. *)
Definition select_actions (actor_input : JValue) : Res JValue :=
  template_name <~ py_get actor_input "template" JNull ;;
  if truthy template_name then
    template_params <~ py_get actor_input "template_params" (JObj []) ;;
    match get_template template_name template_params with
    | Ok l => Ok (JList l)
    | Raise e => Raise (mkExc ValueError ("Template error: " ++ exc_msg e))
    end
  else py_get actor_input "actions" (JList []).

Record Settings : Type := mkSettings {
  set_browser_type : BrowserType;
  set_headless : JValue;
  set_proxy : JValue;
  set_stealth_mode : JValue
}.

(** The run-level settings read before the browser is started. *)
Definition session_settings (actor_input : JValue) : Res Settings :=
  v_browser <~ py_get actor_input "browser_type" (JStr "chromium") ;;
  browser_type <~ enum_of all_BrowserType BrowserType_value "BrowserType"
                          (py_repr py) v_browser ;;
  headless <~ py_get actor_input "headless" (JBool true) ;;
  proxy <~ py_get actor_input "proxy" JNull ;;
  stealth_mode <~ py_get actor_input "stealth_mode" (JBool false) ;;
  Ok (mkSettings browser_type headless proxy stealth_mode).

(** After the loop: the summary, the export when one is asked for, the
    summary to the sink. *)
Definition finish (actor_input : JValue) : M Run unit :=
  output <- _prepare_output ;;
  export_format <- liftR (py_get actor_input "export_format" (JStr "json")) ;;
  (if negb (is_str export_format "json")
   then _export_data output export_format
   else ret tt) ;;;
  push_data output.

(** The body of the [try] of [run]. *)
Definition run_try (actor_input : JValue) : M Run unit :=
  actions_data <- liftR (select_actions actor_input) ;;
  liftR (_validate_input [("actions", actions_data)]) ;;;
  settings <- liftR (session_settings actor_input) ;;
  modify (fun r =>
            mkRun (run_sys r)
                  (set_controller (new_controller (set_browser_type settings))
                                  (run_self r))) ;;;
  on_controller "launch"
                (launch (set_headless settings) (set_proxy settings)
                        (set_stealth_mode settings)) ;;;
  (* [_validate_input] has let only a list through *)
  items <- liftR (match actions_data with
                  | JList l => Ok l
                  | _ => Raise (mkExc TypeError "object is not iterable")
                  end) ;;
  run_actions (List.length items) 1 items ;;;
  finish actor_input.

Definition failure_record (e : Exc) (self : PlaywrightMCPActor) : JValue :=
  JObj [("success", JBool false);
        ("error", JStr (exc_msg e));
        ("stats", stats_dict (stats self))].

(** [PlaywrightMCPActor.run], on the value [Actor.get_input()] returned
    ([JNull] for [None]). *)
Definition run (actor_input : JValue) : M Run unit :=
  let actor_input := effective_input actor_input in
  try_finally
    (try_except (run_try actor_input)
       (fun e =>
          r <- get ;;
          push_data (failure_record e (run_self r)) ;;;
          raise e))
    (r <- get ;;
     match controller (run_self r) with
     | Some c => sysop (close c)
     | None => ret tt
     end).

End WithEngine.

Arguments mkSys {W} world trace.
Arguments world {W} s.
Arguments trace {W} s.
Arguments mkRun {W} run_sys run_self.
Arguments run_sys {W} r.
Arguments run_self {W} r.
Arguments mkFrame {W} sys result.
Arguments mkCtl {W} ctl_sys ctl_self.

(* ====================================================================== *)
(** ** A small concrete world, to run the model on                         *)
(* ====================================================================== *)

Module Demo.

(** The world counts the calls made so far.  The page is example.com: one
    [h1] heading, reachable as CSS [h1] and as the text [Example Domain]. *)
Definition World : Type := nat.

Definition timeout_exc : Exc :=
  mkExc PlaywrightTimeoutError "Timeout 10000ms exceeded.".

Definition visible (q : Query) : bool :=
  match q with
  | QSelector s => String.eqb s "css=h1"
  | QText v => is_str v "Example Domain"
  end.

Definition demo_loc_call (l : Locator) (c : LocCall) (w : World)
  : World * Res JValue :=
  (S w,
   if visible (loc_query l) then
     match c with
     | TextContent | InnerHtml => Ok (JStr "Example Domain")
     | _ => Ok JNull
     end
   else Raise timeout_exc).

Definition demo_page_call (h : Handle) (c : PageCall) (w : World)
  : World * Res JValue :=
  (S w,
   match c with
   | Goto url =>
       if String.eqb url "" then Raise (mkExc PlaywrightError "Cannot navigate to invalid URL")
       else Ok JNull
   | Title => Ok (JStr "Example Domain")
   | Content => Ok (JStr "<html><h1>Example Domain</h1></html>")
   | EvaluateJs _ => Ok JNull
   | GoBack | GoForward | Reload => Ok JNull
   end).

Definition png_magic : list Byte.byte :=
  [Byte.x89; Byte.x50; Byte.x4e; Byte.x47].

Definition engine : Engine World :=
  {| playwright_start := fun w => (S w, Ok 1);
     env_get := fun _ w => (w, Ok None);
     browser_launch := fun _ _ _ w => (S w, Ok 2);
     new_context := fun _ _ w => (S w, Ok 3);
     add_init_script := fun _ w => (S w, Ok tt);
     new_page := fun _ w => (S w, Ok 4);
     context_close := fun _ w => (S w, Ok tt);
     browser_close := fun _ w => (S w, Ok tt);
     playwright_stop := fun _ w => (S w, Ok tt);
     page_call := demo_page_call;
     page_url := fun _ _ => "https://example.com/";
     page_screenshot := fun _ w => (S w, Ok png_magic);
     loc_call := demo_loc_call;
     sleep_ms := fun _ w => S w;
     time_ms := fun w => (Z.of_nat w * 10)%Z;
     now_iso := fun _ => "2024-01-01T00:00:00";
     export_rows := fun _ _ w => (S w, Ok tt) |}.

(** [str] and [repr] on strings, integers, booleans and [None]; containers
    print as an ellipsis, which is all the examples below need. *)
Definition demo_str (v : JValue) : string :=
  match v with
  | JNull => "None"
  | JBool true => "True"
  | JBool false => "False"
  | JInt z => str_of_Z z
  | JStr s => s
  | JList _ => "[...]"
  | JObj _ => "{...}"
  end.

Definition demo_repr (v : JValue) : string :=
  match v with
  | JStr s => "'" ++ s ++ "'"
  | _ => demo_str v
  end.

Definition python : Python :=
  {| py_str := demo_str;
     py_repr := demo_repr;
     py_int_of_str := fun s => if String.eqb s "2000" then Some 2000%Z else None |}.

Definition start : Run World := mkRun (mkSys O []) new_actor.

End Demo.

(* ====================================================================== *)
(** ** Reading a trace                                                     *)
(* ====================================================================== *)







(** The events an action can cause: locator attempts, page and locator
    calls, screenshots, sleeps. *)
Definition action_event (ev : Event) : bool :=
  match ev with
  | EvLogTrying _ _ | EvLoc _ _ _ | EvPage _ _ | EvScreenshot _ | EvSleep _ =>
      true
  | _ => false
  end.

(** The trace of a run only grows; [added s s'] is what was added. *)
Definition added {W} (s s' : Sys W) (evs : list Event) : Prop :=
  trace s' = trace s ++ evs.

(* ====================================================================== *)
(** ** Proof tools                                                         *)
(* ====================================================================== *)

(** Case analysis on every test the code makes, innermost first. *)
Ltac split_match :=
  match goal with
  | |- context [match ?x with _ => _ end] =>
      lazymatch x with
      | context [match _ with _ => _ end] => fail
      | _ => destruct x eqn:?
      end
  end.

Ltac run_code := cbn; repeat (split_match; cbn).

Ltac unfold_monad :=
  unfold raise_ValueError, locator_call, with_page;
  unfold bind, ret, raise, try_except, liftR, get, modify, call, emit.

Lemma app_one_assoc {A} (l m : list A) (x : A) : (l ++ m) ++ [x] = l ++ (m ++ [x]).
Proof. now rewrite <- app_assoc. Qed.

Lemma app_one_nil {A} (l : list A) (x : A) : l ++ [x] = l ++ ([] ++ [x]).
Proof. reflexivity. Qed.

Section Locator.

Variable W : Type.
Variable eng : Engine W.
Variable py : Python.





(** An exception that came out of a page or locator call of the engine. *)
Definition engine_raised (e : Exc) : Prop :=
  (exists h c w w', page_call eng h c w = (w', Raise e)) \/
  (exists l c w w', loc_call eng l c w = (w', Raise e)).

(** An exception whose message the code wrote itself is never empty; the
    others are the engine's. *)
Definition explained (e : Exc) : Prop :=
  exc_msg e <> "" \/ engine_raised e.

Lemma explained_by_loc l c w w' e :
  loc_call eng l c w = (w', Raise e) -> explained e.
Proof. intros H. right. right. eauto. Qed.

Lemma explained_by_page h c w w' e :
  page_call eng h c w = (w', Raise e) -> explained e.
Proof. intros H. right. left. eauto. Qed.

Lemma explained_by_text (c : ExcClass) (a : ascii) (m : string) :
  explained (mkExc c (String a m)).
Proof. left. discriminate. Qed.

Lemma find_element_effect page selector st timeout s s' r :
  find_element eng py page selector st timeout s = (s', r) ->
  (exists evs, added s s' evs /\ forallb action_event evs = true) /\
  match r with
  | Raise e => explained e
  | Ok _ => True
  end.
Proof.
  intros H.
  replace s' with (fst (find_element eng py page selector st timeout s))
    by (rewrite H; reflexivity).
  replace r with (snd (find_element eng py page selector st timeout s))
    by (rewrite H; reflexivity).
  clear H.
  destruct st, page;
    unfold find_element, strategies, try_strategies, attempt, strategy_locator,
      SelectorType_value, attr_error;
    unfold_monad; run_code.
  all: unfold added; cbn [trace].
  all: rewrite <- ?app_assoc.
  all: (split; [eexists; split; [reflexivity|reflexivity]|]).
  all: try exact I.
  all: try (eapply explained_by_loc; eassumption).
  all: try apply explained_by_text.
Qed.

End Locator.

Section Executor.

Variable W : Type.
Variable eng : Engine W.
Variable py : Python.


(** What [result.screenshot_base64] can hold. *)
Definition screenshot_of (o : option string) : Prop :=
  match o with
  | None => True
  | Some b =>
      exists h w w' bytes,
        page_screenshot eng h w = (w', Ok bytes) /\ b = b64encode bytes
  end.

Definition fresh_result (a : Action) (now : string) : ActionResult :=
  mkActionResult false a JNull None 0 None now.

Ltac use_find_element :=
  repeat match goal with
         | H : find_element eng py _ _ _ _ _ = (_, _) |- _ =>
             apply find_element_effect in H;
             destruct H as [[? [? ?]] ?]
         end.

Lemma dispatch_effect self a now s :
  let out := dispatch eng py self a (mkFrame s (fresh_result a now)) in
  let f := fst out in
  (exists evs, added s (sys f) evs /\ forallb action_event evs = true) /\
  action (result f) = a /\
  error (result f) = None /\
  timestamp (result f) = now /\
  match snd out with
  | Ok _ =>
      success (result f) = true /\
      screenshot_of (screenshot_base64 (result f)) /\
      (screenshot_base64 (result f) <> None <-> type a = SCREENSHOT)
  | Raise e =>
      success (result f) = false /\
      screenshot_base64 (result f) = None /\
      explained eng e
  end.
Proof.
  unfold dispatch, fresh_result.
  destruct (type a) eqn:Htype.
  all: unfold _navigate, _click, _type, _fill, _select, _check, _uncheck,
         _screenshot, _extract_text, _extract_attributes, _wait, _scroll,
         _hover, _focus, _press_key, _get_html, _evaluate, _wait_for_element,
         locate, require_selector, require_value, require_value_not_None,
         page_do, on_first, update, lift, py_int, attr_error.
  all: unfold_monad.
  all: run_code.
  all: use_find_element.
  all: unfold added in *; cbn [trace sys result] in *.
  all: repeat match goal with
              | H : trace ?x = _ |- context [trace ?x] => rewrite H
              end.
  all: rewrite <- ?app_assoc.
  all: split;
    [eexists; split;
     [first [reflexivity | symmetry; apply app_nil_r]
     |rewrite ?forallb_app; cbn;
      repeat match goal with
             | H : forallb _ _ = true |- _ => rewrite H
             end; reflexivity]
    |].
  all: repeat split; try congruence; try discriminate.
  all: try solve [eassumption
                 | eapply explained_by_loc; eassumption
                 | eapply explained_by_page; eassumption
                 | apply explained_by_text].
  do 4 eexists; split; [eassumption | reflexivity].
Qed.

(** [execute_action] returns a result whatever [dispatch] did. *)
Lemma execute_action_effect self a s :
  let out := execute_action eng py self a s in
  let self' := fst (snd out) in
  let r := snd (snd out) in
  (exists evs, added s (fst out) evs /\ forallb action_event evs = true) /\
  action r = a /\
  timestamp r = now_iso eng (world s) /\
  (self' = self \/ self' = incr_action_count self) /\
  screenshot_of (screenshot_base64 r) /\
  (screenshot_base64 r <> None <-> type a = SCREENSHOT /\ success r = true) /\
  match error r with
  | None => success r = true
  | Some msg => success r = false /\ exists e, explained eng e /\ msg = exc_msg e
  end.
Proof.
  pose proof (dispatch_effect self a (now_iso eng (world s)) s) as H.
  unfold execute_action. unfold fresh_result in H.
  destruct (dispatch eng py self a _) as [f [u|e]]; cbn in *.
  - destruct H as (Hev & Ha & He & Ht & Hs & Hshot & Hiff).
    rewrite He. intuition.
  - destruct H as (Hev & Ha & He & Ht & Hs & Hshot & Hexp).
    rewrite Hshot. repeat split; auto; try congruence; try tauto.
    + intros [_ Hc]. congruence.
    + eexists; split; [eassumption | reflexivity].
Qed.

(** The engine's side of the contract: an exception it raises says what
    went wrong, and a screenshot it returns is an image, so not zero bytes. *)
Definition informative : Prop :=
  forall e, engine_raised eng e -> exc_msg e <> "".

Definition takes_real_screenshots : Prop :=
  forall h w w' bytes, page_screenshot eng h w = (w', Ok bytes) -> bytes <> [].

Lemma b64encode_empty bytes : b64encode bytes = "" -> bytes = [].
Proof.
  destruct bytes as [|x [|y [|z rest]]]; cbn; intros H;
    solve [reflexivity | discriminate].
Qed.

Lemma lookup_error_to_dict r :
  lookup "error" (to_dict r) =
  match error r with
  | Some msg => if String.eqb msg "" then None else Some (JStr msg)
  | None => None
  end.
Proof.
  unfold to_dict, opt_entry.
  destruct (truthy (selector (action r))), (truthy (value (action r))),
    (truthy (description (action r))), (error r) as [msg|],
    (truthy_opt (screenshot_base64 r));
    cbn; try destruct (String.eqb msg ""); reflexivity.
Qed.

(** C4 as the specification words it: every failed result shows a
    non-empty error string in its output record. *)
Definition failures_show_a_message : Prop :=
  forall (self : BrowserController) (a : Action) (s : Sys W),
    let r := snd (snd (execute_action eng py self a s)) in
    success r = false ->
    exists msg, msg <> "" /\ lookup "error" (to_dict r) = Some (JStr msg).

(** C4, as the code has it: a result carries an error text exactly when it
    is a failure, and a success has no [error] entry in its output record.
    The text of a failure is [str(e)] of the exception the action raised,
    as it is: the text is empty only for an exception of a page or locator
    call whose message is empty, and then the output record of the failed
    result has no [error] entry at all; every other failure shows its text
    there. *)
Theorem failure_carries_the_exception_text :
  forall (self : BrowserController) (a : Action) (s : Sys W),
    let r := snd (snd (execute_action eng py self a s)) in
    (error r <> None <-> success r = false) /\
    (success r = true -> lookup "error" (to_dict r) = None) /\
    (success r = false ->
     exists (f : Frame W) (e : Exc),
       dispatch eng py self a
                (mkFrame s (fresh_result a (now_iso eng (world s)))) =
       (f, Raise e) /\
       error r = Some (exc_msg e) /\
       (exc_msg e = "" -> engine_raised eng e) /\
       lookup "error" (to_dict r) =
         (if String.eqb (exc_msg e) "" then None else Some (JStr (exc_msg e)))).
Proof.
  intros self a s r.
  pose proof (dispatch_effect self a (now_iso eng (world s)) s) as H.
  subst r. rewrite lookup_error_to_dict.
  unfold execute_action. unfold fresh_result in *.
  destruct (dispatch eng py self a _) as [f [u|e]]; cbn in *.
  - destruct H as (_ & _ & He & _ & Hs & _). rewrite He, Hs.
    repeat split; congruence.
  - destruct H as (_ & _ & _ & _ & Hs & _ & Hexp). rewrite Hs.
    repeat split; try congruence.
    intros _. exists f, e. repeat split.
    intros Hempty. destruct Hexp as [Hne|Heng]; [contradiction | exact Heng].
Qed.

(** On an engine whose exceptions all have a message, every failure shows
    one. *)
Lemma informative_engine_shows_messages :
  informative -> failures_show_a_message.
Proof.
  intros Hinf self a s r Hfail.
  destruct (execute_action_effect self a s) as (_ & _ & _ & _ & _ & _ & H).
  fold r in H. rewrite lookup_error_to_dict.
  destruct (error r) as [msg|].
  - destruct H as (_ & e & He & ->). exists (exc_msg e).
    assert (Hne : exc_msg e <> "")
      by (destruct He as [He|He]; [exact He | apply Hinf, He]).
    split; [exact Hne|].
    destruct (String.eqb_spec (exc_msg e) ""); congruence.
  - congruence.
Qed.

Definition is_screenshot (t : ActionType) : bool :=
  match t with
  | SCREENSHOT => true
  | _ => false
  end.

(** C7: the statistics count one more screenshot after a screenshot action
    that succeeded, and the same number after one that failed and after an
    action of any other type. *)
Theorem screenshot_counted_once_on_success :
  takes_real_screenshots ->
  forall (self : BrowserController) (a : Action) (s : Sys W) (st : Stats),
    let r := snd (snd (execute_action eng py self a s)) in
    screenshots_captured (update_stats r st) =
    if is_screenshot (type a) && success r
    then screenshots_captured st + 1
    else screenshots_captured st.
Proof.
  intros Hreal self a s st r.
  destruct (execute_action_effect self a s) as (_ & _ & _ & _ & Hshot & Hiff & _).
  fold r in Hshot, Hiff.
  unfold update_stats; cbn [screenshots_captured].
  destruct (screenshot_base64 r) as [b|]; cbn [truthy_opt].
  - destruct Hshot as (h & w & w' & bytes & Hcall & ->).
    destruct Hiff as [Hiff _]. destruct Hiff as [Ht Hs]; [discriminate|].
    rewrite Ht, Hs. cbn.
    destruct (String.eqb_spec (b64encode bytes) "") as [E|E].
    + apply b64encode_empty in E. apply Hreal in Hcall. contradiction.
    + cbn. lia.
  - destruct (is_screenshot (type a) && success r) eqn:E; [|reflexivity].
    apply andb_prop in E. destruct E as [Et Es].
    destruct Hiff as [_ Hiff]. exfalso. apply Hiff; [|reflexivity].
    split; [|assumption]. destruct (type a); try discriminate. reflexivity.
Qed.

(** The action types that cannot run without a selector. *)
Definition needs_selector (t : ActionType) : bool :=
  match t with
  | CLICK | TYPE | FILL | SELECT | CHECK | UNCHECK | EXTRACT_ATTRIBUTES
  | HOVER | FOCUS | PRESS_KEY | WAIT_FOR_ELEMENT => true
  | _ => false
  end.

(** The checks on [value] that come before the element is looked up. *)
Definition value_accepted (a : Action) : bool :=
  match type a with
  | TYPE | FILL | SELECT => negb (is_None (value a))
  | PRESS_KEY => truthy (value a)
  | _ => true
  end.

Definition not_found_message (a : Action) : string :=
  match type a with
  | WAIT_FOR_ELEMENT =>
      "Element not found or timeout: " ++ py_str py (selector a)
  | _ => "Element not found: " ++ py_str py (selector a)
  end.

Lemma find_element_label page selector timeout s :
  find_element eng py page selector LABEL timeout s =
  (mkSys (world s) (trace s ++ [EvLogTrying "label" selector]), Ok None).
Proof. reflexivity. Qed.

(** C9: with selector type [label] the lookup asks nothing of the page and
    answers [None], whatever the page, the selector and the timeout are; so
    an action that needs a selector fails, and when its fields pass the
    checks that come first its error is the element-not-found message. *)
Theorem label_selector_is_never_found :
  (forall page selector timeout s,
      find_element eng py page selector LABEL timeout s =
      (mkSys (world s) (trace s ++ [EvLogTrying "label" selector]), Ok None)) /\
  (forall (self : BrowserController) (a : Action) (s : Sys W),
      needs_selector (type a) = true ->
      selector_type a = LABEL ->
      let r := snd (snd (execute_action eng py self a s)) in
      success r = false /\
      (truthy (selector a) = true -> value_accepted a = true ->
       error r = Some (not_found_message a))).
Proof.
  split; [intros; apply find_element_label|].
  intros self a s Hneeds Hlabel r. subst r.
  unfold execute_action, dispatch, value_accepted,
    not_found_message.
  destruct (type a) eqn:Htype; try discriminate Hneeds.
  all: unfold _click, _type, _fill, _select, _check, _uncheck,
         _extract_attributes, _hover, _focus, _press_key, _wait_for_element,
         locate, require_selector, require_value, require_value_not_None,
         lift; rewrite Hlabel.
  all: unfold find_element, strategies, try_strategies, attempt,
         strategy_locator, SelectorType_value.
  all: unfold_monad.
  all: destruct (truthy (selector a)), (is_None (value a)),
         (truthy (value a)); cbn.
  all: split; [reflexivity | intros; solve [reflexivity | discriminate]].
Qed.

End Executor.

(* ====================================================================== *)
(** ** The orchestrator                                                    *)
(* ====================================================================== *)

Lemma bind_ok {S A B} (m : M S A) (k : A -> M S B) s s' b :
  bind m k s = (s', Ok b) ->
  exists a s1, m s = (s1, Ok a) /\ k a s1 = (s', Ok b).
Proof.
  unfold bind. destruct (m s) as [s1 [a|e]]; intros H.
  - exists a, s1. split; [reflexivity | assumption].
  - discriminate.
Qed.

(** The events of a release, and of the end of a run. *)
Definition release_event (ev : Event) : bool :=
  match ev with
  | EvContextClose _ _ | EvBrowserClose _ _ | EvStop _ _ => true
  | _ => false
  end.

Definition export_event (ev : Event) : bool :=
  match ev with
  | EvExport _ _ => true
  | _ => false
  end.

(** The segment of the trace that one action leaves: the line that
    announces it, what the action did, the result sent to the sink. *)
Definition action_record (r : ActionResult) : JValue :=
  JObj [("type", JStr "action_result"); ("data", JObj (to_dict r))].

Definition segment (n i : nat) (r : ActionResult) (inner : list Event)
  : list Event :=
  EvLogExecuting i n (JStr (ActionType_value (type (action r))))
  :: inner ++ [EvPush (action_record r)].

Fixpoint segments (n i : nat) (rs : list ActionResult)
         (inners : list (list Event)) : list Event :=
  match rs, inners with
  | r :: rs', inner :: inners' =>
      segment n i r inner ++ segments n (S i) rs' inners'
  | _, _ => []
  end.

Fixpoint sumZ (l : list Z) : Z :=
  match l with
  | [] => 0%Z
  | x :: rest => (x + sumZ rest)%Z
  end.

Lemma sumZ_snoc l x : sumZ (l ++ [x]) = (sumZ l + x)%Z.
Proof. induction l as [|y l IH]; cbn; [lia | rewrite IH; lia]. Qed.

(** The statistics as the result log gives them. *)
Definition tallied (self : PlaywrightMCPActor) : Prop :=
  total_actions (stats self) = List.length (results self) /\
  successful_actions (stats self) =
    List.length (filter success (results self)) /\
  failed_actions (stats self) =
    List.length (filter (fun r => negb (success r)) (results self)) /\
  total_execution_time_ms (stats self) =
    sumZ (map execution_time_ms (results self)) /\
  screenshots_captured (stats self) =
    List.length (filter (fun r => truthy_opt (screenshot_base64 r))
                        (results self)).

Lemma tallied_controller c self : tallied self -> tallied (set_controller c self).
Proof. exact (fun H => H). Qed.

Lemma tallied_result res self : tallied self -> tallied (record_result res self).
Proof.
  unfold tallied, record_result, update_stats.
  cbn [stats results total_actions successful_actions failed_actions
       total_execution_time_ms screenshots_captured].
  intros (Ht & Hs & Hf & Hx & Hc).
  rewrite !filter_app, !length_app, map_app. cbn [map]. rewrite sumZ_snoc.
  cbn [filter]. rewrite Ht, Hs, Hf, Hx, Hc.
  destruct (success res), (truthy_opt (screenshot_base64 res)); cbn;
    repeat split; lia.
Qed.

Section Orchestrator.

Variable W : Type.
Variable eng : Engine W.
Variable py : Python.

(** *** Properties of [self] that every step of a run keeps *)

Definition stable (P : PlaywrightMCPActor -> Prop) {A} (m : M (Run W) A)
  : Prop :=
  forall r, P (run_self r) -> P (run_self (fst (m r))).

Section Stable.

Variable P : PlaywrightMCPActor -> Prop.
Hypothesis P_controller : forall c self, P self -> P (set_controller c self).
Hypothesis P_result : forall res self, P self -> P (record_result res self).

Lemma stable_ret {A} (a : A) : stable P (ret a).
Proof. intros r H. exact H. Qed.

Lemma stable_raise {A} (e : Exc) : stable P (@raise _ A e).
Proof. intros r H. exact H. Qed.

Lemma stable_liftR {A} (x : Res A) : stable P (liftR x).
Proof. intros r H. exact H. Qed.

Lemma stable_get : stable P get.
Proof. intros r H. exact H. Qed.

Lemma stable_bind {A B} (m : M (Run W) A) (k : A -> M (Run W) B) :
  stable P m -> (forall a, stable P (k a)) -> stable P (bind m k).
Proof.
  intros Hm Hk r H. unfold bind. specialize (Hm r H).
  destruct (m r) as [r1 [a|e]]; cbn in *.
  - apply Hk, Hm.
  - exact Hm.
Qed.

Lemma stable_try_except {A} (m : M (Run W) A) (h : Exc -> M (Run W) A) :
  stable P m -> (forall e, stable P (h e)) -> stable P (try_except m h).
Proof.
  intros Hm Hh r H. unfold try_except. specialize (Hm r H).
  destruct (m r) as [r1 [a|e]]; cbn in *.
  - exact Hm.
  - apply Hh, Hm.
Qed.

Lemma stable_try_finally {A} (m : M (Run W) A) (fin : M (Run W) unit) :
  stable P m -> stable P fin -> stable P (try_finally m fin).
Proof.
  intros Hm Hf r H. unfold try_finally. specialize (Hm r H).
  destruct (m r) as [r1 x]; cbn in *. specialize (Hf r1 Hm).
  destruct (fin r1) as [r2 [u|e]]; exact Hf.
Qed.

Lemma stable_sysop {A} (m : M (Sys W) A) : stable P (sysop m).
Proof.
  intros r H. unfold sysop. destruct (m (run_sys r)); exact H.
Qed.

Lemma stable_on_controller {A} (name : string) (m : M (Ctl W) A) :
  stable P (on_controller name m).
Proof.
  intros r H. unfold on_controller.
  destruct (controller (run_self r)); [|exact H].
  destruct (m _); cbn. apply P_controller, H.
Qed.

Lemma stable_run_action n i d : stable P (run_action eng py n i d).
Proof.
  unfold run_action, push_data.
  repeat first [ apply stable_bind; [|intros]
               | apply stable_liftR | apply stable_sysop
               | apply stable_on_controller ].
  intros r H. cbn. apply P_result, H.
Qed.

Lemma stable_run_actions n i ds : stable P (run_actions eng py n i ds).
Proof.
  revert i. induction ds as [|d ds IH]; intros i; cbn [run_actions].
  - apply stable_ret.
  - apply stable_bind; [apply stable_run_action | intros; apply IH].
Qed.

Lemma stable_export output fmt : stable P (_export_data eng py output fmt).
Proof.
  unfold _export_data.
  apply stable_try_except; [|intros; apply stable_ret].
  repeat first [ apply stable_bind; [|intros] | apply stable_liftR ].
  destruct (is_str fmt "csv"); [apply stable_sysop|].
  destruct (is_str fmt "excel"); [apply stable_sysop | apply stable_ret].
Qed.

Lemma stable_finish input : stable P (finish eng py input).
Proof.
  unfold finish, _prepare_output, push_data.
  repeat first [ apply stable_bind; [|intros]
               | apply stable_liftR | apply stable_sysop | apply stable_get
               | apply stable_ret ].
  destruct (negb _); [apply stable_export | apply stable_ret].
Qed.

Lemma stable_run_try input : stable P (run_try eng py input).
Proof.
  unfold run_try.
  repeat first [ apply stable_liftR | apply stable_on_controller
               | apply stable_run_actions | apply stable_finish
               | apply stable_bind; [|intros] ].
  intros r H. cbn. apply P_controller, H.
Qed.

Lemma stable_run input : stable P (run eng py input).
Proof.
  unfold run, push_data.
  apply stable_try_finally.
  - apply stable_try_except; [apply stable_run_try|].
    intros e.
    repeat first [ apply stable_bind; [|intros]
                 | apply stable_get | apply stable_sysop | apply stable_raise ].
  - apply stable_bind; [apply stable_get|]. intros r.
    destruct (controller (run_self r)); [apply stable_sysop | apply stable_ret].
Qed.

End Stable.

(** *** C2: the statistics balance *)

Definition balanced (st : Stats) : Prop :=
  total_actions st = successful_actions st + failed_actions st.

Lemma update_stats_balanced res st :
  balanced st -> balanced (update_stats res st).
Proof.
  unfold balanced, update_stats. cbn. destruct (success res); lia.
Qed.

Definition self_balanced (self : PlaywrightMCPActor) : Prop :=
  balanced (stats self).

Lemma balanced_controller c self :
  self_balanced self -> self_balanced (set_controller c self).
Proof. exact (fun H => H). Qed.

Lemma balanced_result res self :
  self_balanced self -> self_balanced (record_result res self).
Proof. apply update_stats_balanced. Qed.

(** The states of the run after each turn of the loop, up to the end of the
    list or to the turn that raises. *)
Fixpoint observations (n i : nat) (ds : list JValue) (r : Run W)
  : list (Run W) :=
  match ds with
  | [] => []
  | d :: rest =>
      let (r', x) := run_action eng py n i d r in
      r' :: match x with
            | Ok _ => observations n (S i) rest r'
            | Raise _ => []
            end
  end.

Lemma last_cons {A} (l : list A) (a d : A) : last (a :: l) d = last l a.
Proof.
  revert a d. induction l as [|b l IH]; intros a d; [reflexivity|].
  change (last (a :: b :: l) d) with (last (b :: l) d).
  rewrite (IH b d), (IH b a). reflexivity.
Qed.

Lemma run_actions_ends_at_last_observation n i ds r :
  fst (run_actions eng py n i ds r) = last (observations n i ds r) r.
Proof.
  revert i r. induction ds as [|d ds IH]; intros i r; cbn [run_actions observations].
  - reflexivity.
  - unfold bind. destruct (run_action eng py n i d r) as [r' [u|e]].
    + rewrite IH, last_cons. reflexivity.
    + reflexivity.
Qed.

(** C2: from a state whose statistics balance, they balance after every
    turn of the loop, at the end of the loop, and at the end of the run,
    however the run ends. *)
Theorem stats_balance_at_every_observation_point :
  forall (n i : nat) (ds : list JValue) (r : Run W),
    balanced (stats (run_self r)) ->
    Forall (fun r' => balanced (stats (run_self r'))) (observations n i ds r) /\
    balanced (stats (run_self (fst (run_actions eng py n i ds r)))) /\
    (forall actor_input,
        balanced (stats (run_self (fst (run eng py actor_input r))))).
Proof.
  intros n i ds r H.
  assert (Hobs : Forall (fun r' => balanced (stats (run_self r')))
                        (observations n i ds r)).
  { revert i r H. induction ds as [|d ds IH]; intros i r H; cbn [observations].
    - constructor.
    - pose proof (stable_run_action self_balanced balanced_controller balanced_result
                                    n i d r H) as H1.
      destruct (run_action eng py n i d r) as [r' [u|e]]; cbn in H1.
      + constructor; [exact H1 | apply IH, H1].
      + constructor; [exact H1 | constructor]. }
  split; [exact Hobs|]. split.
  - apply (stable_run_actions self_balanced balanced_controller balanced_result), H.
  - intros actor_input.
    apply (stable_run self_balanced balanced_controller balanced_result), H.
Qed.

(** *** One turn of the loop, and the loop *)

Lemma enum_of_value {T} (members : list T) (value : T -> string) name repr x m :
  enum_of members value name repr x = Ok m -> x = JStr (value m).
Proof.
  unfold enum_of. destruct x; try discriminate.
  destruct (find _ members) as [m'|] eqn:E; [|discriminate].
  intros H. injection H as <-.
  apply find_some in E. destruct E as [_ E].
  apply String.eqb_eq in E. congruence.
Qed.

Lemma parsed_type d a :
  _parse_action py d = Ok a ->
  py_get d "type" JNull = Ok (JStr (ActionType_value (type a))).
Proof.
  unfold _parse_action, bindR.
  destruct (py_get d "type" JNull) as [t|e]; [|discriminate].
  destruct (enum_of all_ActionType _ _ _ t) as [ty|e] eqn:E; [|discriminate].
  apply enum_of_value in E. subst t.
  destruct (py_get d "selector_type" _) as [st|e]; [|discriminate].
  destruct (enum_of all_SelectorType _ _ _ st) as [sty|e]; [|discriminate].
  do 5 (match goal with
        | |- context [py_get d ?k ?v] =>
            destruct (py_get d k v); [|discriminate]
        end).
  intros H. injection H as <-. reflexivity.
Qed.

(** What one turn does when the entry parses and the controller is there. *)
Lemma run_action_effect n i d a c (r : Run W) :
  _parse_action py d = Ok a ->
  controller (run_self r) = Some c ->
  let s1 := mkSys (world (run_sys r))
                  (trace (run_sys r)
                     ++ [EvLogExecuting i n (JStr (ActionType_value (type a)))]) in
  let out := execute_action eng py c a s1 in
  let res := snd (snd out) in
  run_action eng py n i d r =
  (mkRun (mkSys (world (fst out)) (trace (fst out) ++ [EvPush (action_record res)]))
         (set_controller (fst (snd out)) (record_result res (run_self r))),
   Ok tt).
Proof.
  intros Hparse Hc. unfold run_action.
  rewrite (parsed_type _ Hparse), Hparse.
  unfold on_controller, push_data, sysop; unfold_monad. cbn. rewrite Hc.
  destruct (execute_action eng py c a _) as [s' [c' res]]. reflexivity.
Qed.

(** The loop runs every entry that parses, whatever the results are. *)
Lemma run_actions_effect n :
  forall ds acts,
    Forall2 (fun d a => _parse_action py d = Ok a) ds acts ->
    forall i (r : Run W) c,
      controller (run_self r) = Some c ->
      exists r' rs inners,
        run_actions eng py n i ds r = (r', Ok tt) /\
        results (run_self r') = results (run_self r) ++ rs /\
        map action rs = acts /\
        stats (run_self r') =
          fold_left (fun st res => update_stats res st) rs (stats (run_self r)) /\
        controller (run_self r') <> None /\
        List.length inners = List.length rs /\
        Forall (fun inner => forallb action_event inner = true) inners /\
        added (run_sys r) (run_sys r') (segments n i rs inners).
Proof.
  induction 1 as [|d a ds acts Hparse _ IH]; intros i r c Hc.
  - exists r, [], []. cbn. repeat split; auto.
    + now rewrite app_nil_r.
    + congruence.
    + unfold added. now rewrite app_nil_r.
  - cbn [run_actions]. unfold bind.
    rewrite (run_action_effect n i d r Hparse Hc).
    set (s1 := mkSys (world (run_sys r))
                     (trace (run_sys r)
                        ++ [EvLogExecuting i n
                              (JStr (ActionType_value (type a)))])).
    destruct (execute_action_effect eng py c a s1)
      as ((inner & Hadd & Hinner) & Ha & _).
    destruct (execute_action eng py c a s1) as [s' [c' res]] eqn:E.
    cbn [fst snd] in *.
    destruct (IH (S i)
                 (mkRun (mkSys (world s')
                               (trace s' ++ [EvPush (action_record res)]))
                        (set_controller c' (record_result res (run_self r))))
                 c' eq_refl)
      as (r' & rs & inners & Hrun & Hres & Hacts & Hst & Hctl & Hlen & Hin & Htr).
    rewrite Hrun.
    exists r', (res :: rs), (inner :: inners).
    cbn [run_self run_sys results stats set_controller record_result] in *.
    repeat split; auto.
    + rewrite Hres, <- app_assoc. reflexivity.
    + cbn. congruence.
    + cbn. lia.
    + unfold added in *. cbn [trace] in *.
      rewrite Htr, Hadd. subst s1. cbn [trace segments]. unfold segment.
      rewrite Ha. cbn [List.app]. rewrite <- !app_assoc. reflexivity.
Qed.

(** *** [close], the export, the end of the run *)

Inductive Release : Type :=
| RelContext (h : Handle)
| RelBrowser (h : Handle)
| RelPlaywright (h : Handle).

(** The release calls [close] has to make, in its order. *)
Definition release_plan (c : BrowserController) : list Release :=
  match context c with Some h => [RelContext h] | None => [] end
  ++ match browser c with Some h => [RelBrowser h] | None => [] end
  ++ match playwright c with Some h => [RelPlaywright h] | None => [] end.

Fixpoint releases (evs : list Event) : list Release :=
  match evs with
  | [] => []
  | EvContextClose h _ :: rest => RelContext h :: releases rest
  | EvBrowserClose h _ :: rest => RelBrowser h :: releases rest
  | EvStop h _ :: rest => RelPlaywright h :: releases rest
  | _ :: rest => releases rest
  end.

Definition answered_ok (ev : Event) : bool :=
  match ev with
  | EvContextClose _ (Ok _) | EvBrowserClose _ (Ok _) | EvStop _ (Ok _) => true
  | _ => false
  end.

Lemma close_effect c (s : Sys W) :
  snd (close eng c s) = Ok tt /\
  exists evs,
    added s (fst (close eng c s)) evs /\
    forallb release_event evs = true /\
    (exists rest, release_plan c = releases evs ++ rest /\
                  (forallb answered_ok evs = true -> rest = [])) /\
    forallb answered_ok (removelast evs) = true.
Proof.
  unfold close, release_plan; unfold_monad.
  destruct (context c), (browser c), (playwright c); run_code.
  all: repeat match goal with u : unit |- _ => destruct u end.
  all: split; [reflexivity|].
  all: unfold added; cbn [trace]; rewrite <- ?app_assoc.
  all: first [ exists []; split; [symmetry; apply app_nil_r|]
             | eexists; split; [reflexivity|] ].
  all: cbn.
  all: repeat split; eauto.
  all: eexists; split; [reflexivity | intros; solve [reflexivity | discriminate]].
Qed.

Lemma export_effect output fmt (r : Run W) :
  let out := _export_data eng py output fmt r in
  snd out = Ok tt /\
  run_self (fst out) = run_self r /\
  exists evs, added (run_sys r) (run_sys (fst out)) evs /\
              forallb export_event evs = true.
Proof.
  unfold _export_data, sysop; unfold_monad.
  destruct (py_get output "actions" (JList [])) as [actions|e]; cbn.
  2: { repeat split. exists []. split; [unfold added; now rewrite app_nil_r|reflexivity]. }
  destruct (match actions with JList l => flat_actions py l | _ => _ end)
    as [rows|e]; cbn.
  2: { repeat split. exists []. split; [unfold added; now rewrite app_nil_r|reflexivity]. }
  destruct (is_str fmt "csv"); [|destruct (is_str fmt "excel")]; cbn.
  3: { repeat split. exists []. split; [unfold added; now rewrite app_nil_r|reflexivity]. }
  all: destruct (export_rows eng _ _ _) as [w' [[]|e]]; cbn.
  all: repeat split; eexists; split; [reflexivity | reflexivity].
Qed.

Lemma finish_effect input (r r' : Run W) :
  finish eng py input r = (r', Ok tt) ->
  run_self r' = run_self r /\
  exists exports,
    forallb export_event exports = true /\
    added (run_sys r) (run_sys r')
          (exports ++ [EvPush (prepare_output (run_self r)
                                              (now_iso eng (world (run_sys r))))]).
Proof.
  unfold finish, _prepare_output, push_data, sysop; unfold_monad. cbn.
  destruct (py_get input "export_format" (JStr "json")) as [fmt|e]; cbn;
    [|discriminate].
  destruct (negb (is_str fmt "json")).
  - destruct (export_effect (prepare_output (run_self r)
                                            (now_iso eng (world (run_sys r))))
                            fmt r) as (Hok & Hself & evs & Hadd & Hev).
    destruct (_export_data eng py _ fmt r) as [r1 x]. cbn in *. subst x.
    intros H. injection H as <-. cbn. split; [assumption|].
    exists evs. split; [assumption|].
    unfold added in *. cbn. rewrite Hadd, <- app_assoc. reflexivity.
  - intros H. injection H as <-. cbn. split; [reflexivity|].
    exists []. split; reflexivity.
Qed.

(** *** The whole run *)

Lemma bind_liftR {S A B} (x : Res A) (k : A -> M S B) (s : S) :
  bind (liftR x) k s = match x with
                       | Ok a => k a s
                       | Raise e => (s, Raise e)
                       end.
Proof. unfold bind, liftR. destruct x; reflexivity. Qed.

Lemma bind_eq {S A B} (m : M S A) (k : A -> M S B) (s s' : S) (a : A) :
  m s = (s', Ok a) -> bind m k s = k a s'.
Proof. intros H. unfold bind. rewrite H. reflexivity. Qed.

Lemma get_template_nonempty t params l :
  get_template py t params = Ok l -> l <> [].
Proof.
  unfold get_template.
  repeat match goal with
         | |- context [is_str t ?x] => destruct (is_str t x)
         end.
  all: unfold _amazon_product_search, _google_search, _linkedin_profile,
         _twitter_scrape, _google_maps_business, bindR, required.
  all: repeat match goal with
              | |- context [py_get ?p ?k ?v] =>
                  destruct (py_get p k v); [|discriminate]
              end.
  all: try (destruct (negb _); [discriminate|]).
  all: intros H; try discriminate; injection H as <-; discriminate.
Qed.

Lemma select_actions_nonempty input ds :
  select_actions py (effective_input input) = Ok (JList ds) -> ds <> [].
Proof.
  unfold effective_input.
  destruct (uses_default input) eqn:Hdef.
  - cbn. intros H. injection H as <-. discriminate.
  - unfold select_actions, bindR.
    destruct input as [| | | | |kv]; try discriminate. cbn [py_get].
    destruct (truthy (dict_get kv "template" JNull)).
    + destruct (get_template py _ _) as [l|e] eqn:E; [|discriminate].
      intros H. injection H as <-. eapply get_template_nonempty, E.
    + unfold uses_default in Hdef. cbn [is_None orb] in Hdef.
      apply orb_false_elim in Hdef. destruct Hdef as [_ Hact].
      apply negb_false_iff in Hact.
      unfold dict_get in *. destruct (lookup "actions" kv) as [v|].
      * intros H. injection H as ->. intros ->. discriminate.
      * discriminate.
Qed.

Lemma select_actions_dict input v :
  select_actions py input = Ok v -> exists kv, input = JObj kv.
Proof.
  unfold select_actions, bindR.
  destruct input; try discriminate. eauto.
Qed.

(** A run whose session starts executes every entry of its action list and
    ends normally: the trace after the launch is one segment per action,
    then the export (if any), the summary, and the release calls. *)
Lemma run_executes_the_list input ds acts settings (s s1 : Sys W) c1 :
  select_actions py (effective_input input) = Ok (JList ds) ->
  session_settings py (effective_input input) = Ok settings ->
  launch eng (set_headless settings) (set_proxy settings)
         (set_stealth_mode settings)
         (mkCtl s (new_controller (set_browser_type settings))) =
  (mkCtl s1 c1, Ok tt) ->
  Forall2 (fun d a => _parse_action py d = Ok a) ds acts ->
  exists final rs inners exports now closing,
    run eng py input (mkRun s new_actor) = (final, Ok tt) /\
    results (run_self final) = rs /\
    map action rs = acts /\
    stats (run_self final) =
      fold_left (fun st res => update_stats res st) rs (stats new_actor) /\
    List.length inners = List.length rs /\
    Forall (fun inner => forallb action_event inner = true) inners /\
    forallb export_event exports = true /\
    forallb release_event closing = true /\
    trace (run_sys final) =
      trace s1 ++ segments (List.length ds) 1 rs inners
        ++ exports ++ [EvPush (prepare_output (run_self final) now)] ++ closing.
Proof.
  intros Hsel Hset Hlaunch Hparse.
  pose proof (select_actions_nonempty _ Hsel) as Hne.
  destruct (select_actions_dict _ Hsel) as (kv & Hkv).
  destruct (run_actions_effect (List.length ds) Hparse 1
              (mkRun s1 (set_controller c1 new_actor)) eq_refl)
    as (r2 & rs & inners & Hrun & Hres & Hacts & Hst & Hctl & Hlen & Hin & Htr).
  assert (Hfin : exists r3, finish eng py (effective_input input) r2 = (r3, Ok tt)).
  { unfold finish, _prepare_output. rewrite Hkv.
    unfold push_data, sysop; unfold_monad. cbn [py_get].
    destruct (negb _); [|eauto].
    destruct (export_effect (prepare_output (run_self r2)
                               (now_iso eng (world (run_sys r2))))
                            (dict_get kv "export_format" (JStr "json")) r2)
      as (Hok & _).
    destruct (_export_data eng py _ _ r2) as [r x]. cbn in Hok. subst x.
    eauto. }
  destruct Hfin as (r3 & Hfin).
  destruct (finish_effect _ _ Hfin) as (Hself & exports & Hexp & Hadd).
  assert (Htry : run_try eng py (effective_input input) (mkRun s new_actor)
                 = (r3, Ok tt)).
  { unfold run_try.
    rewrite bind_liftR, Hsel. cbv beta iota.
    rewrite bind_liftR.
    replace (_validate_input [("actions", JList ds)]) with (@Ok unit tt)
      by (destruct ds; [congruence | reflexivity]).
    cbv beta iota. rewrite bind_liftR, Hset. cbv beta iota.
    unfold modify at 1. unfold bind at 1.
    unfold on_controller at 1. unfold bind at 1.
    cbn [run_self run_sys controller set_controller]. rewrite Hlaunch.
    cbn [ctl_sys ctl_self]. rewrite bind_liftR.
    erewrite bind_eq by exact Hrun. exact Hfin. }
  unfold run, try_finally, try_except. rewrite Htry.
  unfold bind, get. cbn [fst snd].
  destruct (controller (run_self r3)) as [c3|] eqn:Hc3.
  2: { rewrite Hself in Hc3. contradiction. }
  destruct (close_effect c3 (run_sys r3)) as (Hok & closing & Hcl & Hrel & _).
  unfold sysop. destruct (close eng c3 (run_sys r3)) as [s4 x]. cbn in Hok, Hcl.
  subst x.
  exists (mkRun s4 (run_self r3)), rs, inners, exports,
    (now_iso eng (world (run_sys r2))), closing.
  cbn [run_self run_sys]. rewrite Hself.
  cbn [results stats set_controller new_actor List.app] in Hres, Hst.
  repeat split; auto.
  unfold added in *. cbn [run_sys trace] in *.
  rewrite Hcl, Hadd, Htr, <- !app_assoc.
  assert (Hp : prepare_output (run_self r3) = prepare_output (run_self r2))
    by (rewrite Hself; reflexivity).
  reflexivity.
Qed.

Definition after_loop_event (ev : Event) : bool :=
  export_event ev || release_event ev
  || match ev with EvPush _ => true | _ => false end.

(** When the session starts and every entry of the action list parses, a
    run over a list of length N ends normally with exactly N results, the
    i-th being the result of the i-th action; between the line that
    announces action i and the one that announces action i+1 the trace
    holds what action i did and then its result record going to the sink;
    nothing in the statement depends on whether a result is a success. *)
Lemma every_action_yields_one_result_in_order :
  forall (input : JValue) (ds : list JValue) (acts : list Action)
         (settings : Settings) (s s1 : Sys W) (c1 : BrowserController),
    select_actions py (effective_input input) = Ok (JList ds) ->
    session_settings py (effective_input input) = Ok settings ->
    launch eng (set_headless settings) (set_proxy settings)
           (set_stealth_mode settings)
           (mkCtl s (new_controller (set_browser_type settings))) =
    (mkCtl s1 c1, Ok tt) ->
    Forall2 (fun d a => _parse_action py d = Ok a) ds acts ->
    exists final rs inners tail,
      run eng py input (mkRun s new_actor) = (final, Ok tt) /\
      results (run_self final) = rs /\
      List.length rs = List.length ds /\
      map action rs = acts /\
      List.length inners = List.length rs /\
      Forall (fun inner => forallb action_event inner = true) inners /\
      trace (run_sys final) =
        trace s1 ++ segments (List.length ds) 1 rs inners ++ tail /\
      forallb after_loop_event tail = true.
Proof.
  intros input ds acts settings s s1 c1 Hsel Hset Hlaunch Hparse.
  destruct (run_executes_the_list input s Hsel Hset Hlaunch Hparse)
    as (final & rs & inners & exports & now & closing & Hrun & Hres & Hacts
        & _ & Hlen & Hin & Hexp & Hcl & Htr).
  exists final, rs, inners,
    (exports ++ [EvPush (prepare_output (run_self final) now)] ++ closing).
  repeat split; auto.
  - rewrite (Forall2_length Hparse), <- Hacts. now rewrite length_map.
  - rewrite forallb_app. apply andb_true_intro. split.
    + apply forallb_forall. intros ev Hev.
      rewrite forallb_forall in Hexp. unfold after_loop_event.
      now rewrite (Hexp ev Hev).
    + cbn. apply forallb_forall. intros ev Hev.
      rewrite forallb_forall in Hcl. unfold after_loop_event.
      rewrite (Hcl ev Hev). now rewrite orb_true_r.
Qed.

(** *** C5: the run summary *)

Lemma no_failure_iff_all_succeeded (rs : list ActionResult) :
  Nat.eqb (List.length (filter (fun r => negb (success r)) rs)) 0 =
  forallb success rs.
Proof.
  induction rs as [|r rs IH]; [reflexivity|].
  cbn. destruct (success r); cbn; [exact IH | reflexivity].
Qed.

Lemma run_ok_inv input (r final : Run W) :
  run eng py input r = (final, Ok tt) ->
  exists r3,
    run_try eng py (effective_input input) r = (r3, Ok tt) /\
    run_self final = run_self r3 /\
    exists closing,
      added (run_sys r3) (run_sys final) closing /\
      forallb release_event closing = true.
Proof.
  unfold run, try_finally, try_except.
  destruct (run_try eng py (effective_input input) r) as [r3 [[]|e]].
  - unfold bind, get.
    destruct (controller (run_self r3)) as [c|].
    + destruct (close_effect c (run_sys r3)) as (Hok & closing & Hcl & Hrel & _).
      unfold sysop. destruct (close eng c (run_sys r3)) as [s4 x].
      cbn in Hok, Hcl. subst x. intros H. injection H as <-.
      exists r3. repeat split. exists closing. auto.
    + cbn. intros H. injection H as <-. exists r3. repeat split.
      exists []. split; [unfold added; now rewrite app_nil_r | reflexivity].
  - unfold bind, get, push_data, sysop, emit, raise. cbn.
    destruct (controller (run_self r3)) as [c|]; cbn.
    + destruct (close eng c _) as [s4 [u|e']]; discriminate.
    + discriminate.
Qed.

(** The steps of a [try] body that ended normally. *)
Lemma run_try_ok_steps input (s : Sys W) (r3 : Run W) :
  run_try eng py input (mkRun s new_actor) = (r3, Ok tt) ->
  exists ds settings s1 c1 r2,
    select_actions py input = Ok (JList ds) /\
    session_settings py input = Ok settings /\
    launch eng (set_headless settings) (set_proxy settings)
           (set_stealth_mode settings)
           (mkCtl s (new_controller (set_browser_type settings))) =
    (mkCtl s1 c1, Ok tt) /\
    run_actions eng py (List.length ds) 1 ds
                (mkRun s1 (set_controller c1 new_actor)) = (r2, Ok tt) /\
    finish eng py input r2 = (r3, Ok tt).
Proof.
  unfold run_try. rewrite bind_liftR.
  destruct (select_actions py input) as [v|e]; [|discriminate].
  rewrite bind_liftR.
  destruct (_validate_input [("actions", v)]) as [[]|e]; [|discriminate].
  rewrite bind_liftR.
  destruct (session_settings py input) as [settings|e]; [|discriminate].
  unfold modify at 1. unfold bind at 1.
  unfold on_controller at 1. unfold bind at 1.
  cbn [run_self run_sys controller set_controller].
  destruct (launch eng _ _ _ _) as [[s1 c1] [[]|e]] eqn:Hlaunch;
    [|discriminate].
  cbn [ctl_sys ctl_self]. rewrite bind_liftR.
  destruct v as [| | | |ds|]; try discriminate.
  intros H. apply bind_ok in H. destruct H as ([] & r2 & Hloop & Hfin).
  exists ds, settings, s1, c1, r2. repeat split; auto.
Qed.

(** C5: a run that completes has sent the summary as its last record,
    followed by the release calls only.  The summary has the four entries
    [success], [stats], [actions] and [timestamp]: [success] is
    [failed_actions == 0]; [stats] is the block of all five statistics, as
    they stand at the end of the run; [actions] is the output record of
    every result, in the order of the result log; [timestamp] is the clock
    as read in the state in which the loop over the action list ended,
    before the export and the release.  The statistics are those of the
    result log, so [success] is true exactly when every result is a
    success. *)
Theorem completed_run_sends_the_summary :
  forall (input : JValue) (s : Sys W) (final : Run W),
    run eng py input (mkRun s new_actor) = (final, Ok tt) ->
    let rs := results (run_self final) in
    let st := stats (run_self final) in
    exists (ds : list JValue) (settings : Settings) (s1 : Sys W)
           (c1 : BrowserController) (looped : Run W)
           (exports closing : list Event),
      select_actions py (effective_input input) = Ok (JList ds) /\
      session_settings py (effective_input input) = Ok settings /\
      launch eng (set_headless settings) (set_proxy settings)
             (set_stealth_mode settings)
             (mkCtl s (new_controller (set_browser_type settings))) =
      (mkCtl s1 c1, Ok tt) /\
      run_actions eng py (List.length ds) 1 ds
                  (mkRun s1 (set_controller c1 new_actor)) = (looped, Ok tt) /\
      run_self final = run_self looped /\
      trace (run_sys final) =
        trace (run_sys looped) ++ exports
        ++ [EvPush
              (JObj [("success", JBool (Nat.eqb (failed_actions st) 0));
                     ("stats",
                      JObj [("total_actions",
                             JInt (Z.of_nat (total_actions st)));
                            ("successful_actions",
                             JInt (Z.of_nat (successful_actions st)));
                            ("failed_actions",
                             JInt (Z.of_nat (failed_actions st)));
                            ("total_execution_time_ms",
                             JInt (total_execution_time_ms st));
                            ("screenshots_captured",
                             JInt (Z.of_nat (screenshots_captured st)))]);
                     ("actions", JList (map (fun r => JObj (to_dict r)) rs));
                     ("timestamp",
                      JStr (now_iso eng (world (run_sys looped))))])]
        ++ closing /\
      forallb export_event exports = true /\
      forallb release_event closing = true /\
      tallied (run_self final) /\
      Nat.eqb (failed_actions st) 0 = forallb success rs.
Proof.
  intros input s final Hrun rs st.
  assert (Htal : tallied (run_self final)).
  { pose proof (stable_run tallied tallied_controller tallied_result
                           input (mkRun s new_actor)) as H.
    rewrite Hrun in H. apply H. repeat split. }
  destruct (run_ok_inv _ _ Hrun) as (r3 & Htry & Hself & closing & Hcl & Hrel).
  destruct (run_try_ok_steps _ _ Htry)
    as (ds & settings & s1 & c1 & r2 & Hsel & Hset & Hlaunch & Hloop & Hfin).
  destruct (finish_effect _ _ Hfin) as (Hself2 & exports & Hexp & Hadd).
  exists ds, settings, s1, c1, r2, exports, closing.
  do 4 (split; [assumption|]).
  split; [congruence|].
  split; [|split; [exact Hexp|split; [exact Hrel|split; [exact Htal|]]]].
  - unfold added in *. rewrite Hcl, Hadd, <- !app_assoc.
    subst rs st. rewrite Hself, Hself2. reflexivity.
  - destruct Htal as (_ & _ & Hf & _). subst rs st. rewrite Hf.
    apply no_failure_iff_all_succeeded.
Qed.

(** *** C6: [close] *)









(** *** C8 and C10: the fallback to the demo input *)

Lemma uses_default_run input (r : Run W) :
  uses_default input = true -> run eng py input r = run eng py JNull r.
Proof.
  intros H. unfold run, effective_input. rewrite H. reflexivity.
Qed.

(** A fatal error before the session: the failure record, with the
    statistics as they are, is all the run sends, and the error goes on. *)
Lemma setup_error_aborts_the_run input e (r : Run W) :
  controller (run_self r) = None ->
  select_actions py (effective_input input) = Raise e ->
  run eng py input r =
  (mkRun (mkSys (world (run_sys r))
                (trace (run_sys r) ++ [EvPush (failure_record e (run_self r))]))
         (run_self r),
   Raise e).
Proof.
  intros Hc Hsel. unfold run, try_finally, try_except, run_try.
  rewrite bind_liftR, Hsel. cbn. rewrite Hc. reflexivity.
Qed.

(** C8, at the inputs where the code departs from it: an input that names a
    template, known or not, with parameters or not, and has no [actions] of
    its own is taken for a missing input.  The template generator is not
    called, nothing is raised for the template, and the run is the run of
    the demo input. *)
Theorem template_without_actions_runs_the_demo :
  forall (name params : JValue) (r : Run W),
    let input := JObj [("template", name); ("template_params", params)] in
    effective_input input = default_input /\
    select_actions py (effective_input input) = Ok (JList default_actions) /\
    run eng py input r = run eng py JNull r.
Proof.
  intros name params r input. repeat split.
Qed.

(** The input of a run that was given no actions: no input at all, or a
    dict whose [actions] entry is absent, null or the empty list. *)
Definition no_actions_given (input : JValue) : Prop :=
  input = JNull \/
  exists kv, input = JObj kv /\
             (lookup "actions" kv = None \/
              lookup "actions" kv = Some JNull \/
              lookup "actions" kv = Some (JList [])).

Definition default_parsed : list Action :=
  [mkAction NAVIGATE JNull (JStr "https://example.com") AUTO (JInt 10000)
            (JStr "Navigate to example.com for testing") JNull;
   mkAction GET_TITLE JNull JNull AUTO (JInt 10000)
            (JStr "Get page title to verify page load") JNull;
   mkAction EXTRACT_TEXT (JStr "h1") JNull AUTO (JInt 10000)
            (JStr "Extract heading text") JNull;
   mkAction SCREENSHOT JNull JNull AUTO (JInt 10000)
            (JStr "Capture screenshot to verify rendering") JNull].

Lemma default_actions_parse :
  Forall2 (fun d a => _parse_action py d = Ok a) default_actions default_parsed.
Proof. repeat constructor. Qed.

Lemma no_actions_uses_default input :
  no_actions_given input -> uses_default input = true.
Proof.
  intros [->|(kv & -> & H)]; [reflexivity|].
  unfold uses_default, dict_get. cbn [is_None orb].
  destruct H as [-> | [-> | ->]]; cbn; apply orb_true_r.
Qed.

(** C10: a run that was given no actions does not fail validation: its
    input is replaced by the demo input, whose four actions (navigate to
    https://example.com, get_title, extract_text on h1, screenshot) pass
    validation and, when the session starts, are the four actions the run
    executes; the validation itself rejects an empty [actions] list. *)
Theorem missing_actions_run_the_default_list :
  forall input : JValue,
    no_actions_given input ->
    effective_input input = default_input /\
    select_actions py (effective_input input) = Ok (JList default_actions) /\
    _validate_input [("actions", JList default_actions)] = Ok tt /\
    Forall2 (fun d a => _parse_action py d = Ok a)
            default_actions default_parsed /\
    _validate_input [("actions", JList [])] =
      Raise (mkExc ValueError "'actions' array cannot be empty") /\
    (forall (s s1 : Sys W) (c1 : BrowserController),
        launch eng (JBool true) JNull (JBool false)
               (mkCtl s (new_controller CHROMIUM)) = (mkCtl s1 c1, Ok tt) ->
        exists final,
          run eng py input (mkRun s new_actor) = (final, Ok tt) /\
          map action (results (run_self final)) = default_parsed).
Proof.
  intros input H. apply no_actions_uses_default in H.
  assert (E : effective_input input = default_input)
    by (unfold effective_input; now rewrite H).
  rewrite E. repeat split; [apply default_actions_parse|].
  intros s s1 c1 Hlaunch.
  destruct (@run_executes_the_list input default_actions default_parsed
              (mkSettings CHROMIUM (JBool true) JNull (JBool false)) s s1 c1)
    as (final & rs & _ & _ & _ & _ & Hrun & Hres & Hacts & _);
    try (rewrite E; reflexivity); auto using default_actions_parse.
  exists final. rewrite Hres. auto.
Qed.

End Orchestrator.

(* ====================================================================== *)
(** ** The theorems at work on the small world                             *)
(* ====================================================================== *)

(** An engine that keeps the handles that are open.  Its page cannot be
    opened, so a launch stops half way; a release call closes its handle,
    and on a handle that is not open it changes nothing: closing the
    context or the browser again is accepted, stopping the driver again is
    answered with an error. *)
Module Pool.

Definition World : Type := list Handle.

Definition is_open (h : Handle) (w : World) : bool := existsb (Nat.eqb h) w.

Definition shut (h : Handle) (w : World) : World :=
  filter (fun x => negb (Nat.eqb h x)) w.

Definition engine : Engine World :=
  {| playwright_start := fun w => (1 :: w, Ok 1);
     env_get := fun _ w => (w, Ok None);
     browser_launch := fun _ _ _ w => (2 :: w, Ok 2);
     new_context := fun _ _ w => (3 :: w, Ok 3);
     add_init_script := fun _ w => (w, Ok tt);
     new_page := fun _ w =>
       (w, Raise (mkExc PlaywrightError
                        "Target page, context or browser has been closed"));
     context_close := fun h w => (shut h w, Ok tt);
     browser_close := fun h w => (shut h w, Ok tt);
     playwright_stop := fun h w =>
       if is_open h w then (shut h w, Ok tt)
       else (w, Raise (mkExc PlaywrightError "Connection closed"));
     page_call := fun _ _ w => (w, Ok JNull);
     page_url := fun _ _ => "about:blank";
     page_screenshot := fun _ w => (w, Ok Demo.png_magic);
     loc_call := fun _ _ w => (w, Ok JNull);
     sleep_ms := fun _ w => w;
     time_ms := fun _ => 0%Z;
     now_iso := fun _ => "2024-01-01T00:00:00";
     export_rows := fun _ _ w => (w, Ok tt) |}.



End Pool.

Module DemoRun.

Import Demo.

Definition sys0 : Sys World := mkSys O [].

Lemma engine_is_informative : informative engine.
Proof.
  intros e [(h & c & w & w' & H)|(l & c & w & w' & H)]; cbn in H.
  - unfold demo_page_call in H. injection H as _ H.
    destruct c; try discriminate.
    destruct (String.eqb url ""); [|discriminate].
    injection H as <-. discriminate.
  - unfold demo_loc_call in H. injection H as _ H.
    destruct (visible (loc_query l)).
    + destruct c; discriminate.
    + injection H as <-. discriminate.
Qed.

Lemma engine_takes_real_screenshots : takes_real_screenshots engine.
Proof. intros h w w' bytes H. injection H as _ <-. discriminate. Qed.

(** The controller and the outside after the launch of the demo input. *)
Definition launched : Ctl World :=
  fst (launch engine (JBool true) JNull (JBool false)
              (mkCtl sys0 (new_controller CHROMIUM))).

Definition demo_settings : Settings :=
  mkSettings CHROMIUM (JBool true) JNull (JBool false).

(** A click on an element the page does not have. *)
Definition click_missing : Action :=
  mkAction CLICK (JStr "#missing") JNull AUTO (JInt 10000) JNull JNull.

Definition click_label : Action :=
  mkAction CLICK (JStr "h1") JNull LABEL (JInt 10000) JNull JNull.

Definition take_screenshot : Action :=
  mkAction SCREENSHOT JNull JNull AUTO (JInt 10000) JNull JNull.

(** The run of the demo input: four entries, four results. *)
Example demo_actions_yield_one_result_each :
  exists final rs inners tail,
    run engine python JNull (mkRun sys0 new_actor) = (final, Ok tt) /\
    results (run_self final) = rs /\
    List.length rs = List.length default_actions /\
    map action rs = default_parsed /\
    List.length inners = List.length rs /\
    Forall (fun inner => forallb action_event inner = true) inners /\
    trace (run_sys final) =
      trace (ctl_sys launched)
        ++ segments (List.length default_actions) 1 rs inners ++ tail /\
    forallb after_loop_event tail = true.
Proof.
  apply (@every_action_yields_one_result_in_order World engine python JNull
           default_actions default_parsed demo_settings sys0
           (ctl_sys launched) (ctl_self launched)).
  - vm_compute. reflexivity.
  - vm_compute. reflexivity.
  - vm_compute. reflexivity.
  - apply (default_actions_parse python).
Qed.

Lemma stats_balance_at_every_observation_point_witness :
  balanced (stats (run_self (mkRun sys0 new_actor))) /\
  Forall (fun r' => balanced (stats (run_self r')))
         (observations engine python 4 1 default_actions
                       (mkRun (ctl_sys launched)
                              (set_controller (ctl_self launched) new_actor))) /\
  balanced (stats (run_self (fst (run engine python JNull
                                      (mkRun sys0 new_actor))))).
Proof.
  split; [reflexivity|]. split.
  - apply (@stats_balance_at_every_observation_point World engine python 4 1
             default_actions
             (mkRun (ctl_sys launched)
                    (set_controller (ctl_self launched) new_actor))).
    reflexivity.
  - apply (@stats_balance_at_every_observation_point World engine python 0 0 []
             (mkRun sys0 new_actor)).
    reflexivity.
Defined.

(** An engine whose page raises an exception that has no message: [str] of
    a Python exception made without arguments is the empty string. *)
Definition mute_engine : Engine World :=
  {| playwright_start := fun w => (S w, Ok 1);
     env_get := fun _ w => (w, Ok None);
     browser_launch := fun _ _ _ w => (S w, Ok 2);
     new_context := fun _ _ w => (S w, Ok 3);
     add_init_script := fun _ w => (S w, Ok tt);
     new_page := fun _ w => (S w, Ok 4);
     context_close := fun _ w => (S w, Ok tt);
     browser_close := fun _ w => (S w, Ok tt);
     playwright_stop := fun _ w => (S w, Ok tt);
     page_call := fun _ _ w => (S w, Raise (mkExc OtherException ""));
     page_url := fun _ _ => "about:blank";
     page_screenshot := fun _ w => (S w, Ok png_magic);
     loc_call := demo_loc_call;
     sleep_ms := fun _ w => S w;
     time_ms := fun w => (Z.of_nat w * 10)%Z;
     now_iso := fun _ => "2024-01-01T00:00:00";
     export_rows := fun _ _ w => (S w, Ok tt) |}.

Definition open_home : Action :=
  mkAction NAVIGATE JNull (JStr "https://example.com") AUTO (JInt 10000)
           JNull JNull.

(** The navigation fails on that engine, and the record of the failed
    result has no [error] entry. *)
Lemma empty_exception_text_leaves_no_error_entry :
  let r := snd (snd (execute_action mute_engine python (ctl_self launched)
                                    open_home (ctl_sys launched))) in
  success r = false /\
  error r = Some "" /\
  lookup "error" (to_dict r) = None /\
  map fst (to_dict r) =
    ["type"; "success"; "execution_time_ms"; "output"; "timestamp"; "value"] /\
  ~ failures_show_a_message mute_engine python.
Proof.
  cbv zeta. repeat split.
  intros H.
  destruct (H (ctl_self launched) open_home (ctl_sys launched) eq_refl)
    as (msg & _ & Hmsg).
  vm_compute in Hmsg. discriminate Hmsg.
Qed.

(** The engine of the demo gives every exception a message, and there every
    failure shows one. *)
Example demo_failures_show_a_message : failures_show_a_message engine python.
Proof. exact (informative_engine_shows_messages python engine_is_informative). Qed.

Lemma screenshot_counted_once_on_success_witness :
  takes_real_screenshots engine /\
  screenshots_captured
    (update_stats (snd (snd (execute_action engine python (ctl_self launched)
                                            take_screenshot (ctl_sys launched))))
                  (stats new_actor)) = 1 /\
  screenshots_captured
    (update_stats (snd (snd (execute_action engine python (ctl_self launched)
                                            click_missing (ctl_sys launched))))
                  (stats new_actor)) = 0.
Proof.
  split; [exact engine_takes_real_screenshots|]. split.
  - rewrite (@screenshot_counted_once_on_success World engine python
               engine_takes_real_screenshots (ctl_self launched)
               take_screenshot (ctl_sys launched) (stats new_actor)).
    reflexivity.
  - rewrite (@screenshot_counted_once_on_success World engine python
               engine_takes_real_screenshots (ctl_self launched)
               click_missing (ctl_sys launched) (stats new_actor)).
    reflexivity.
Defined.

(** The run of the demo input, from start to end. *)
Definition demo_final : Run World :=
  Eval vm_compute in fst (run engine python JNull (mkRun sys0 new_actor)).

Lemma demo_run :
  run engine python JNull (mkRun sys0 new_actor) = (demo_final, Ok tt).
Proof. vm_compute. reflexivity. Qed.

Lemma completed_run_sends_the_summary_witness :
  run engine python JNull (mkRun sys0 new_actor) = (demo_final, Ok tt) /\
  let rs := results (run_self demo_final) in
  let st := stats (run_self demo_final) in
  exists (ds : list JValue) (settings : Settings) (s1 : Sys World)
         (c1 : BrowserController) (looped : Run World)
         (exports closing : list Event),
    select_actions python (effective_input JNull) = Ok (JList ds) /\
    session_settings python (effective_input JNull) = Ok settings /\
    launch engine (set_headless settings) (set_proxy settings)
           (set_stealth_mode settings)
           (mkCtl sys0 (new_controller (set_browser_type settings))) =
    (mkCtl s1 c1, Ok tt) /\
    run_actions engine python (List.length ds) 1 ds
                (mkRun s1 (set_controller c1 new_actor)) = (looped, Ok tt) /\
    run_self demo_final = run_self looped /\
    trace (run_sys demo_final) =
      trace (run_sys looped) ++ exports
      ++ [EvPush
            (JObj [("success", JBool (Nat.eqb (failed_actions st) 0));
                   ("stats",
                    JObj [("total_actions",
                           JInt (Z.of_nat (total_actions st)));
                          ("successful_actions",
                           JInt (Z.of_nat (successful_actions st)));
                          ("failed_actions",
                           JInt (Z.of_nat (failed_actions st)));
                          ("total_execution_time_ms",
                           JInt (total_execution_time_ms st));
                          ("screenshots_captured",
                           JInt (Z.of_nat (screenshots_captured st)))]);
                   ("actions", JList (map (fun r => JObj (to_dict r)) rs));
                   ("timestamp",
                    JStr (now_iso engine (world (run_sys looped))))])]
      ++ closing /\
    forallb export_event exports = true /\
    forallb release_event closing = true /\
    tallied (run_self demo_final) /\
    Nat.eqb (failed_actions st) 0 = forallb success rs.
Proof.
  split; [exact demo_run|].
  exact (@completed_run_sends_the_summary World engine python JNull sys0
           demo_final demo_run).
Defined.

Lemma missing_actions_run_the_default_list_witness :
  no_actions_given (JObj [("headless", JBool false)]) /\
  effective_input (JObj [("headless", JBool false)]) = default_input /\
  exists final,
    run engine python (JObj [("headless", JBool false)])
        (mkRun sys0 new_actor) = (final, Ok tt) /\
    map action (results (run_self final)) = default_parsed.
Proof.
  assert (H : no_actions_given (JObj [("headless", JBool false)])).
  { right. eexists. split; [reflexivity|]. left. reflexivity. }
  split; [exact H|].
  destruct (@missing_actions_run_the_default_list World engine python _ H)
    as (E & _ & _ & _ & _ & Hrun).
  split; [exact E|].
  apply (Hrun sys0 (ctl_sys launched) (ctl_self launched)). reflexivity.
Defined.

Lemma label_selector_is_never_found_witness :
  let r := snd (snd (execute_action engine python (ctl_self launched)
                                    click_label (ctl_sys launched))) in
  success r = false /\ error r = Some "Element not found: h1".
Proof.
  destruct (@label_selector_is_never_found World engine python) as (_ & H).
  destruct (H (ctl_self launched) click_label (ctl_sys launched)
              eq_refl eq_refl) as (Hs & He).
  split; [exact Hs | exact (He eq_refl eq_refl)].
Defined.

(** With [actions] given besides, the template error is what the
    specification describes: fatal, before any session, statistics zero. *)
Example unknown_template_with_actions :
  run engine python
      (JObj [("template", JStr "no_such_template"); ("actions", JList [JNull])])
      (mkRun sys0 new_actor) =
  (mkRun (mkSys O
            [EvPush (JObj [("success", JBool false);
                           ("error",
                            JStr "Template error: Unknown template: no_such_template");
                           ("stats", stats_dict (stats new_actor))])])
         new_actor,
   Raise (mkExc ValueError "Template error: Unknown template: no_such_template")).
Proof. reflexivity. Qed.

Example missing_template_parameter_with_actions :
  select_actions python
    (JObj [("template", JStr "google_search"); ("actions", JList [JNull])]) =
  Raise (mkExc ValueError
           "Template error: search_query is required for google_search template").
Proof. reflexivity. Qed.

(** Without [actions], the same template names run the four demo actions. *)
Example unknown_template_alone :
  snd (run engine python (JObj [("template", JStr "no_such_template")])
           (mkRun sys0 new_actor)) = Ok tt /\
  map action
      (results (run_self (fst (run engine python
                                   (JObj [("template", JStr "no_such_template")])
                                   (mkRun sys0 new_actor))))) =
  default_parsed.
Proof. split; reflexivity. Qed.

End DemoRun.

(* ====================================================================== *)
(** ** More of the executor                                                *)
(* ====================================================================== *)

(** The checks an action fails before anything is asked of the page: a
    required selector or value that is missing. *)
Definition rejected (a : Action) : bool :=
  match type a with
  | NAVIGATE | EVALUATE => negb (truthy (value a))
  | CLICK | CHECK | UNCHECK | HOVER | FOCUS | EXTRACT_ATTRIBUTES
  | WAIT_FOR_ELEMENT => negb (truthy (selector a))
  | TYPE | FILL | SELECT => negb (truthy (selector a)) || is_None (value a)
  | PRESS_KEY => negb (truthy (selector a)) || negb (truthy (value a))
  | WAIT => is_None (value a)
  | _ => false
  end.

Ltac unfold_helpers :=
  unfold _navigate, _click, _type, _fill, _select, _check, _uncheck,
    _screenshot, _extract_text, _extract_attributes, _wait, _scroll,
    _hover, _focus, _press_key, _get_html, _evaluate, _wait_for_element,
    locate, require_selector, require_value, require_value_not_None,
    page_do, on_first, update, lift, attr_error.

Section MoreExecutor.

Variable W : Type.
Variable eng : Engine W.
Variable py : Python.

(** X1: the value of an enumeration member reads back as that member, for
    action types, selector types and browser types alike, and nothing but
    the value of a member is read as one. *)
Theorem enum_values_read_back :
  (forall t, enum_of all_ActionType ActionType_value "ActionType"
                     (py_repr py) (JStr (ActionType_value t)) = Ok t) /\
  (forall t, enum_of all_SelectorType SelectorType_value "SelectorType"
                     (py_repr py) (JStr (SelectorType_value t)) = Ok t) /\
  (forall t, enum_of all_BrowserType BrowserType_value "BrowserType"
                     (py_repr py) (JStr (BrowserType_value t)) = Ok t) /\
  (forall x t, enum_of all_ActionType ActionType_value "ActionType"
                       (py_repr py) x = Ok t -> x = JStr (ActionType_value t)).
Proof.
  repeat split.
  - intros t; destruct t; reflexivity.
  - intros t; destruct t; reflexivity.
  - intros t; destruct t; reflexivity.
  - intros x t. apply enum_of_value.
Qed.

(** X2: [_validate_input] accepts exactly the dicts whose [actions] entry
    is a list that is not empty. *)
Theorem validate_input_accepts_nonempty_lists :
  forall d : list (string * JValue),
    _validate_input d = Ok tt <->
    exists l, lookup "actions" d = Some (JList l) /\ l <> [].
Proof.
  intros d. unfold _validate_input. split.
  - destruct d as [|kv d]; [discriminate|]. cbn [truthy negb].
    destruct (lookup "actions" (kv :: d)) as [v|]; [|discriminate].
    destruct v as [| | | |l|]; try discriminate.
    destruct l; [discriminate|]. intros _. eexists. split; [reflexivity|].
    discriminate.
  - intros (l & Hl & Hne). rewrite Hl.
    destruct d as [|kv d]; [discriminate|]. cbn [truthy negb].
    destruct l; [contradiction|reflexivity].
Qed.

(** X3: [execute_action] leaves the handles of the controller alone, and
    its action counter counts the actions that succeeded. *)
Theorem action_count_counts_successes :
  forall (self : BrowserController) (a : Action) (s : Sys W),
    let out := execute_action eng py self a s in
    let self' := fst (snd out) in
    let r := snd (snd out) in
    browser self' = browser self /\
    context self' = context self /\
    page self' = page self /\
    playwright self' = playwright self /\
    action_count self' = action_count self + (if success r then 1 else 0).
Proof.
  intros self a s.
  pose proof (dispatch_effect eng py self a (now_iso eng (world s)) s) as H.
  unfold execute_action. unfold fresh_result in H.
  destruct (dispatch eng py self a _) as [f [u|e]]; cbn in *.
  - destruct H as (_ & _ & _ & _ & Hs & _). rewrite Hs. cbn.
    repeat split. lia.
  - destruct H as (_ & _ & _ & _ & Hs & _). rewrite Hs.
    repeat split. lia.
Qed.

(** X4: an action that lacks a field its type requires fails before
    anything is asked of the page: the outside and the controller are as
    they were, and the result is a failure with a message. *)
Theorem rejected_action_touches_nothing :
  forall (self : BrowserController) (a : Action) (s : Sys W),
    rejected a = true ->
    let out := execute_action eng py self a s in
    fst out = s /\
    fst (snd out) = self /\
    success (snd (snd out)) = false /\
    exists msg, error (snd (snd out)) = Some msg /\ msg <> "".
Proof.
  intros self a s H.
  unfold execute_action, dispatch. unfold rejected in H.
  destruct (type a); try discriminate H; unfold_helpers; unfold_monad.
  all: destruct (truthy (selector a)), (is_None (value a)),
         (truthy (value a)); try discriminate H; cbn.
  all: destruct s; repeat split; eexists; split;
    [reflexivity | discriminate].
Qed.

(** X5: a [wait] never touches the page: either its value reads as a
    number, and the run sleeps that long and succeeds, or it fails with
    nothing done. *)
Theorem wait_only_sleeps :
  forall (self : BrowserController) (a : Action) (s : Sys W),
    type a = WAIT ->
    let out := execute_action eng py self a s in
    (exists ms,
        is_None (value a) = false /\ py_int py (value a) = Ok ms /\
        success (snd (snd out)) = true /\
        fst out = mkSys (sleep_ms eng ms (world s)) (trace s ++ [EvSleep ms])) \/
    (success (snd (snd out)) = false /\ fst out = s).
Proof.
  intros self a s Ht.
  unfold execute_action, dispatch. rewrite Ht.
  unfold_helpers; unfold_monad.
  destruct (is_None (value a)); cbn.
  - right. destruct s; split; reflexivity.
  - destruct (py_int py (value a)) as [ms|e]; cbn.
    + left. exists ms. repeat split.
    + right. destruct s; split; reflexivity.
Qed.

(** X6: the result of a screenshot action: on success the payload is the
    base64 text of the bytes the engine returned and the output states
    their number; on failure the message starts with "Screenshot failed: "
    and there is no payload. *)
Theorem screenshot_result_shape :
  forall (self : BrowserController) (a : Action) (s : Sys W),
    type a = SCREENSHOT ->
    let out := execute_action eng py self a s in
    let r := snd (snd out) in
    match error r with
    | None =>
        exists bytes,
          success r = true /\
          screenshot_base64 r = Some (b64encode bytes) /\
          output r = JStr ("Screenshot captured ("
                             ++ str_of_nat (List.length bytes) ++ " bytes)") /\
          trace (fst out) = trace s ++ [EvScreenshot (Ok bytes)]
    | Some msg =>
        success r = false /\ screenshot_base64 r = None /\
        exists m, msg = ("Screenshot failed: " ++ m)%string
    end.
Proof.
  intros self a s Ht.
  unfold execute_action, dispatch. rewrite Ht.
  unfold_helpers; unfold_monad.
  destruct (page self) as [h|]; cbn.
  - destruct (page_screenshot eng h (world s)) as [w [bytes|e]]; cbn.
    + exists bytes. repeat split.
    + repeat split. eexists. reflexivity.
  - repeat split. eexists. reflexivity.
Qed.

(** X7: a successful [extract_attributes] returns a record with exactly
    the keys text, class, id, href, src, value, placeholder, each holding
    what the element answered ([None] included), read in that order as the
    last seven calls of the action. *)
Theorem extract_attributes_record :
  forall (self : BrowserController) (a : Action) (s : Sys W),
    type a = EXTRACT_ATTRIBUTES ->
    let out := execute_action eng py self a s in
    success (snd (snd out)) = true ->
    exists l before v_text v_class v_id v_href v_src v_value v_placeholder,
      output (snd (snd out)) =
        JObj [("text", v_text); ("class", v_class); ("id", v_id);
              ("href", v_href); ("src", v_src); ("value", v_value);
              ("placeholder", v_placeholder)] /\
      trace (fst out) =
        before ++ [EvLoc l TextContent (Ok v_text);
                   EvLoc l (GetAttribute "class") (Ok v_class);
                   EvLoc l (GetAttribute "id") (Ok v_id);
                   EvLoc l (GetAttribute "href") (Ok v_href);
                   EvLoc l (GetAttribute "src") (Ok v_src);
                   EvLoc l (GetAttribute "value") (Ok v_value);
                   EvLoc l (GetAttribute "placeholder") (Ok v_placeholder)].
Proof.
  intros self a s Ht.
  unfold execute_action, dispatch. rewrite Ht.
  unfold_helpers; unfold_monad.
  run_code.
  all: intros Hs; try discriminate Hs.
  rewrite <- !app_assoc. cbn [List.app].
  do 9 eexists. split; reflexivity.
Qed.

End MoreExecutor.

(* ====================================================================== *)
(** ** More of the orchestrator                                            *)
(* ====================================================================== *)

Lemma substring_length_le (n : nat) (s : string) :
  String.length (substring 0 n s) <= n.
Proof.
  revert s. induction n as [|n IH]; intros s.
  - destruct s; cbn; lia.
  - destruct s as [|c s]; cbn; [lia|]. specialize (IH s). lia.
Qed.

Lemma bind_raises {S A B} (m : M S A) (k : A -> M S B) (s s' : S) (e : Exc) :
  m s = (s', Raise e) -> bind m k s = (s', Raise e).
Proof. intros H. unfold bind. rewrite H. reflexivity. Qed.

Section MoreOrchestrator.

Variable W : Type.
Variable eng : Engine W.
Variable py : Python.

(** X8: the output record of a result has no key twice; it always has
    type and success, and it has selector, value and has_screenshot exactly
    when the action's selector, the action's value and the payload are
    truthy (so a value of 0 or an empty string is left out). *)
Theorem to_dict_keys :
  forall r : ActionResult,
    NoDup (map fst (to_dict r)) /\
    lookup "type" (to_dict r) = Some (JStr (ActionType_value (type (action r)))) /\
    lookup "success" (to_dict r) = Some (JBool (success r)) /\
    lookup "selector" (to_dict r) =
      (if truthy (selector (action r)) then Some (selector (action r)) else None) /\
    lookup "value" (to_dict r) =
      (if truthy (value (action r)) then Some (value (action r)) else None) /\
    lookup "has_screenshot" (to_dict r) =
      (if truthy_opt (screenshot_base64 r) then Some (JBool true) else None).
Proof.
  intros r. unfold to_dict, opt_entry.
  destruct (truthy (selector (action r))), (truthy (value (action r))),
    (truthy (description (action r))), (truthy_opt (error r)),
    (truthy_opt (screenshot_base64 r)); cbn.
  all: split; [|repeat split].
  all: repeat (constructor; [cbn; intuition discriminate|]); constructor.
Qed.

(** X9: at the end of every run, however it ends, the statistics agree
    with the result log: the counts are the number of results, of
    successes and of failures, the time is the sum of the results' times,
    and the screenshot count is the number of results with a payload. *)
Theorem stats_agree_with_results :
  forall (input : JValue) (s : Sys W),
    tallied (run_self (fst (run eng py input (mkRun s new_actor)))).
Proof.
  intros input s.
  apply (stable_run eng py tallied tallied_controller tallied_result).
  repeat split.
Qed.

(** X10: a run that raises has sent the failure record, with the message
    of the exception it raises and the statistics it ends with, as its last
    record; only release calls follow. *)
Theorem failed_run_sends_the_failure_record :
  forall (input : JValue) (s : Sys W),
    let out := run eng py input (mkRun s new_actor) in
    match snd out with
    | Ok _ => True
    | Raise e =>
        exists before closing,
          trace (run_sys (fst out)) =
            before ++ [EvPush (failure_record e (run_self (fst out)))]
                   ++ closing /\
          forallb release_event closing = true
    end.
Proof.
  intros input s. cbv zeta.
  unfold run, try_finally, try_except.
  destruct (run_try eng py (effective_input input) (mkRun s new_actor))
    as [r3 [[]|e]].
  - unfold bind, get. destruct (controller (run_self r3)) as [c|]; cbn.
    + pose proof (close_effect eng c (run_sys r3)) as (Hok & _).
      unfold sysop. destruct (close eng c (run_sys r3)) as [s4 x].
      cbn in Hok. subst x. exact I.
    + exact I.
  - unfold bind, get, push_data, sysop, emit, raise. cbn.
    destruct (controller (run_self r3)) as [c|]; cbn.
    + match goal with
      | |- context [close eng c ?st] =>
          pose proof (close_effect eng c st) as (Hok & closing & Hcl & Hrel & _);
          destruct (close eng c st) as [s4 x]
      end.
      cbn in Hok, Hcl. subst x. cbn.
      exists (trace (run_sys r3)), closing. split; [|exact Hrel].
      unfold added in Hcl. cbn in Hcl. rewrite Hcl, <- app_assoc. reflexivity.
    + exists (trace (run_sys r3)), []. split; reflexivity.
Qed.

(** X11: of the four rejections of [_validate_input] only one can happen
    in a run: whatever the input, the action list the run has selected
    either passes, being a list that is not empty, or is not a list. *)
Theorem run_validation_fails_only_on_non_lists :
  forall input : JValue,
    match select_actions py (effective_input input) with
    | Raise _ => True
    | Ok v =>
        match _validate_input [("actions", v)] with
        | Ok _ => exists l, v = JList l /\ l <> []
        | Raise e =>
            e = mkExc ValueError "'actions' must be an array" /\
            forall l, v <> JList l
        end
    end.
Proof.
  intros input.
  destruct (select_actions py (effective_input input)) as [v|e] eqn:Hsel;
    [|exact I].
  destruct v as [| | | |l|]; cbn; try (split; [reflexivity|discriminate]).
  pose proof (select_actions_nonempty py input Hsel) as Hne.
  destruct l; [contradiction|]. cbn. eexists. split; [reflexivity|discriminate].
Qed.

(** X12: the export cannot fail the run or change its results: for every
    format, data and answer of the export collaborator [_export_data]
    returns normally with [self] as it was, and for a format other than
    csv and excel it does nothing at all. *)
Theorem export_never_fails_the_run :
  forall (output fmt : JValue) (r : Run W),
    let out := _export_data eng py output fmt r in
    snd out = Ok tt /\
    run_self (fst out) = run_self r /\
    (is_str fmt "csv" = false -> is_str fmt "excel" = false -> fst out = r).
Proof.
  intros output fmt r.
  destruct (export_effect eng py output fmt r) as (Hok & Hself & _).
  cbv zeta. repeat split; auto.
  intros Hcsv Hxls. unfold _export_data, sysop; unfold_monad.
  rewrite Hcsv, Hxls.
  destruct (py_get output "actions" (JList [])) as [actions|e]; cbn;
    [|destruct r; reflexivity].
  destruct (match actions with JList l => flat_actions py l | _ => _ end);
    cbn; destruct r; reflexivity.
Qed.

(** X13: a row of the export has exactly the keys type, selector, success,
    execution_time_ms, timestamp, error, output, and its output is text of
    at most 500 characters; only a record that is not a dict has no row. *)
Theorem export_row_is_bounded :
  forall a : JValue,
    match flat_action py a with
    | Ok row =>
        exists kv text,
          row = JObj kv /\
          map fst kv = ["type"; "selector"; "success"; "execution_time_ms";
                        "timestamp"; "error"; "output"] /\
          lookup "output" kv = Some (JStr text) /\
          String.length text <= 500
    | Raise _ => forall kv, a <> JObj kv
    end.
Proof.
  intros a. destruct a; cbn; try discriminate.
  do 2 eexists. repeat split. apply substring_length_le.
Qed.

Lemma run_actions_app n i l1 l2 (r : Run W) :
  run_actions eng py n i (l1 ++ l2) r =
  bind (run_actions eng py n i l1)
       (fun _ => run_actions eng py n (i + List.length l1) l2) r.
Proof.
  revert i r. induction l1 as [|d l1 IH]; intros i r; cbn [List.app run_actions].
  - unfold bind, ret. cbn [List.length]. rewrite Nat.add_0_r. reflexivity.
  - unfold bind at 1 2 3. destruct (run_action eng py n i d r) as [r1 [u|e]].
    + rewrite IH. cbn [List.length]. rewrite Nat.add_succ_r. reflexivity.
    + reflexivity.
Qed.

Lemma run_action_unparseable n i bad e (r : Run W) :
  _parse_action py bad = Raise e ->
  exists r',
    run_action eng py n i bad r = (r', Raise e) /\
    run_self r' = run_self r /\
    world (run_sys r') = world (run_sys r).
Proof.
  intros Hparse. unfold run_action, sysop; unfold_monad.
  destruct (py_get bad "type" JNull) as [t|e'] eqn:Ht; cbn.
  - rewrite Hparse. eexists. repeat split.
  - unfold _parse_action, bindR in Hparse. rewrite Ht in Hparse.
    injection Hparse as ->. eexists. repeat split.
Qed.

(** X14: an entry that does not parse into an action (unknown type,
    unknown selector type, not a dict) is not a failed result: the loop
    raises at it.  The entries before it have run and their results and
    statistics stay; the bad entry and every entry after it leave no
    result, whatever they are. *)
Theorem unparseable_entry_stops_the_loop :
  forall (n i : nat) (good : list JValue) (acts : list Action) (bad : JValue)
         (e : Exc) (r : Run W) (c : BrowserController),
    Forall2 (fun d a => _parse_action py d = Ok a) good acts ->
    _parse_action py bad = Raise e ->
    controller (run_self r) = Some c ->
    exists r' rs,
      (forall rest,
          run_actions eng py n i (good ++ bad :: rest) r = (r', Raise e)) /\
      results (run_self r') = results (run_self r) ++ rs /\
      map action rs = acts /\
      stats (run_self r') =
        fold_left (fun st res => update_stats res st) rs (stats (run_self r)).
Proof.
  intros n i good acts bad e r c Hgood Hbad Hc.
  destruct (run_actions_effect eng py n Hgood i r Hc)
    as (r1 & rs & inners & Hrun & Hres & Hacts & Hst & _).
  destruct (@run_action_unparseable n (i + List.length good) bad e r1 Hbad)
    as (r' & Hstep & Hself & _).
  exists r', rs. rewrite Hself. repeat split; auto.
  intros rest. rewrite run_actions_app. unfold bind at 1. rewrite Hrun.
  cbn [run_actions]. unfold bind. rewrite Hstep. reflexivity.
Qed.

(** The turn of the loop at an entry that does not parse: the line that
    announces it is written when the entry is a dict, and nothing else. *)
Lemma unparseable_entry_is_only_announced n i bad e (r : Run W) :
  _parse_action py bad = Raise e ->
  exists announced,
    run_action eng py n i bad r =
      (mkRun (mkSys (world (run_sys r)) (trace (run_sys r) ++ announced))
             (run_self r),
       Raise e) /\
    (announced = [] \/ exists t, announced = [EvLogExecuting i n t]).
Proof.
  intros Hparse. unfold run_action, sysop; unfold_monad.
  destruct (py_get bad "type" JNull) as [t|e'] eqn:Ht; cbn.
  - rewrite Hparse. exists [EvLogExecuting i n t]. split; [reflexivity|].
    right. eauto.
  - unfold _parse_action, bindR in Hparse. rewrite Ht in Hparse.
    injection Hparse as ->. exists []. rewrite app_nil_r.
    destruct r as [[w tr] self]. split; [reflexivity | left; reflexivity].
Qed.

(** C1, where the code departs from it: the entries of the action list are
    parsed one by one inside the loop, outside the [try] of
    [execute_action].  An entry that does not parse (a type or selector
    type that is not a member of its enumeration, an entry that is not a
    dict) therefore yields no failed result: the run raises the parse
    error.  With N entries of which the first k parse, the run ends with
    the k results of those, k < N; after their segments the trace holds at
    most the line announcing entry k+1, then the failure record and the
    release calls; the entries after it are never looked at. *)
Theorem unparseable_entry_aborts_the_run :
  forall (input : JValue) (good : list JValue) (acts : list Action)
         (bad : JValue) (e : Exc) (rest : list JValue)
         (settings : Settings) (s s1 : Sys W) (c1 : BrowserController),
    select_actions py (effective_input input) =
      Ok (JList (good ++ bad :: rest)) ->
    session_settings py (effective_input input) = Ok settings ->
    launch eng (set_headless settings) (set_proxy settings)
           (set_stealth_mode settings)
           (mkCtl s (new_controller (set_browser_type settings))) =
    (mkCtl s1 c1, Ok tt) ->
    Forall2 (fun d a => _parse_action py d = Ok a) good acts ->
    _parse_action py bad = Raise e ->
    exists final rs inners announced closing,
      run eng py input (mkRun s new_actor) = (final, Raise e) /\
      results (run_self final) = rs /\
      map action rs = acts /\
      List.length rs = List.length good /\
      List.length rs < List.length (good ++ bad :: rest) /\
      List.length inners = List.length rs /\
      Forall (fun inner => forallb action_event inner = true) inners /\
      trace (run_sys final) =
        trace s1
          ++ segments (List.length (good ++ bad :: rest)) 1 rs inners
          ++ announced
          ++ [EvPush (failure_record e (run_self final))]
          ++ closing /\
      (announced = [] \/
       exists t,
         announced = [EvLogExecuting (S (List.length good))
                                     (List.length (good ++ bad :: rest)) t]) /\
      forallb release_event closing = true.
Proof.
  intros input good acts bad e rest settings s s1 c1
         Hsel Hset Hlaunch Hgood Hbad.
  set (n := List.length (good ++ bad :: rest)).
  destruct (run_actions_effect eng py n Hgood 1
              (mkRun s1 (set_controller c1 new_actor)) eq_refl)
    as (r2 & rs & inners & Hrun & Hres & Hacts & Hst & Hctl & Hlen & Hin & Htr).
  destruct (@unparseable_entry_is_only_announced n (1 + List.length good)
              bad e r2 Hbad) as (announced & Hstep & Hann).
  set (r3 := mkRun (mkSys (world (run_sys r2)) (trace (run_sys r2) ++ announced))
                   (run_self r2)) in *.
  assert (Hloop : run_actions eng py n 1 (good ++ bad :: rest)
                    (mkRun s1 (set_controller c1 new_actor)) = (r3, Raise e)).
  { rewrite run_actions_app. unfold bind at 1. rewrite Hrun.
    cbn [run_actions]. unfold bind. rewrite Hstep. reflexivity. }
  assert (Htry : run_try eng py (effective_input input) (mkRun s new_actor)
                 = (r3, Raise e)).
  { unfold run_try.
    rewrite bind_liftR, Hsel. cbv beta iota.
    rewrite bind_liftR.
    replace (_validate_input [("actions", JList (good ++ bad :: rest))])
      with (@Ok unit tt) by (destruct good; reflexivity).
    cbv beta iota. rewrite bind_liftR, Hset. cbv beta iota.
    unfold modify at 1. unfold bind at 1.
    unfold on_controller at 1. unfold bind at 1.
    cbn [run_self run_sys controller set_controller]. rewrite Hlaunch.
    cbn [ctl_sys ctl_self]. rewrite bind_liftR.
    apply bind_raises. exact Hloop. }
  unfold run, try_finally, try_except. rewrite Htry.
  unfold bind, get, push_data, sysop, emit, raise. cbn [fst snd run_self run_sys].
  destruct (controller (run_self r3)) as [c3|] eqn:Hc3.
  2: { subst r3. cbn [run_self] in Hc3. contradiction. }
  match goal with
  | |- context [close eng c3 ?st] =>
      destruct (close_effect eng c3 st) as (Hok & closing & Hcl & Hrel & _);
      destruct (close eng c3 st) as [s4 x]
  end.
  cbn [fst snd] in Hok, Hcl. subst x.
  exists (mkRun s4 (run_self r3)), rs, inners, announced, closing.
  cbn [run_self run_sys].
  cbn [results stats set_controller new_actor List.app run_self] in Hres.
  assert (Hk : List.length rs = List.length good).
  { rewrite <- (length_map action rs), Hacts.
    symmetry. apply (Forall2_length Hgood). }
  repeat split; auto.
  - unfold n. rewrite Hk, length_app. cbn. lia.
  - unfold added in *. cbn [run_sys trace world] in *.
    rewrite Hcl. subst r3. cbn [run_self run_sys trace].
    rewrite Htr, <- !app_assoc. reflexivity.
Qed.

End MoreOrchestrator.

(* ====================================================================== *)
(** ** The template generator                                              *)
(* ====================================================================== *)

(** The names [list_templates] announces. *)
Definition template_names : list string :=
  flat_map (fun t => match t with
                     | JObj kv => match lookup "name" kv with
                                  | Some (JStr n) => [n]
                                  | _ => []
                                  end
                     | _ => []
                     end) list_templates.

(** The answer of [get_template] to a name it does not know. *)
Definition unknown_template (r : Res (list JValue)) : bool :=
  match r with
  | Raise e => String.eqb (substring 0 18 (exc_msg e)) "Unknown template: "
  | Ok _ => false
  end.

(** A listed template, asked for with no parameters, asks for the first
    parameter its entry declares. *)
Definition asks_for_its_first_parameter (py : Python) (t : JValue) : Prop :=
  match t with
  | JObj kv =>
      exists n p ps,
        lookup "name" kv = Some (JStr n) /\
        lookup "parameters" kv = Some (JList (JStr p :: ps)) /\
        get_template py (JStr n) (JObj []) =
        Raise (mkExc ValueError (p ++ " is required for " ++ n ++ " template"))
  | _ => False
  end.

Lemma is_str_true v s : is_str v s = true -> v = JStr s.
Proof.
  destruct v; cbn; try discriminate. intros H.
  apply String.eqb_eq in H. congruence.
Qed.

Section Templates.

Variable py : Python.

(** X15: [get_template] knows exactly the templates [list_templates]
    lists: a name is answered with "Unknown template" if and only if it is
    not one of the listed names, whatever the parameters; and each listed
    template requires the first parameter of its entry. *)
Theorem listed_templates_are_the_known_ones :
  (forall t params : JValue,
      unknown_template (get_template py t params) = false <->
      exists n, t = JStr n /\ In n template_names) /\
  Forall (asks_for_its_first_parameter py) list_templates.
Proof.
  split.
  - intros t params. split.
    + unfold get_template.
      destruct (is_str t "amazon_product_search") eqn:E1;
        [apply is_str_true in E1; intros _; eexists; split;
         [exact E1 | cbn; tauto]|].
      destruct (is_str t "google_search") eqn:E2;
        [apply is_str_true in E2; intros _; eexists; split;
         [exact E2 | cbn; tauto]|].
      destruct (is_str t "linkedin_profile") eqn:E3;
        [apply is_str_true in E3; intros _; eexists; split;
         [exact E3 | cbn; tauto]|].
      destruct (is_str t "twitter_scrape") eqn:E4;
        [apply is_str_true in E4; intros _; eexists; split;
         [exact E4 | cbn; tauto]|].
      destruct (is_str t "google_maps_business") eqn:E5;
        [apply is_str_true in E5; intros _; eexists; split;
         [exact E5 | cbn; tauto]|].
      cbn. destruct (py_str py t); discriminate.
    + intros (n & -> & Hn). cbn in Hn.
      destruct Hn as [<-|[<-|[<-|[<-|[<-|[]]]]]]; cbn [get_template is_str String.eqb Ascii.eqb Bool.eqb];
        cbn [get_template]; unfold get_template; cbn.
      all: unfold _amazon_product_search, _google_search, _linkedin_profile,
             _twitter_scrape, _google_maps_business, bindR, required,
             unknown_template.
      all: destruct params; cbn; try reflexivity.
      all: destruct (negb _); reflexivity.
  - unfold list_templates, asks_for_its_first_parameter.
    repeat (constructor; [do 3 eexists; repeat split|]). constructor.
Qed.

(** X16: whatever [get_template] returns can be run as it is: the list is
    not empty, so it passes [_validate_input], every entry parses into an
    action with the default selector type, the first action is a navigate
    and the last one a screenshot. *)
Theorem generated_actions_are_runnable :
  forall (t params : JValue) (l : list JValue),
    get_template py t params = Ok l ->
    _validate_input [("actions", JList l)] = Ok tt /\
    exists acts,
      Forall2 (fun d a => _parse_action py d = Ok a) l acts /\
      Forall (fun a => selector_type a = AUTO) acts /\
      map type acts =
        NAVIGATE :: removelast (tl (map type acts)) ++ [SCREENSHOT].
Proof.
  intros t params l. unfold get_template.
  repeat match goal with
         | |- context [is_str t ?x] => destruct (is_str t x)
         end.
  all: unfold _amazon_product_search, _google_search, _linkedin_profile,
         _twitter_scrape, _google_maps_business, bindR, required.
  all: repeat match goal with
              | |- context [py_get ?p ?k ?v] =>
                  destruct (py_get p k v); [|discriminate]
              end.
  all: try (destruct (negb _); [discriminate|]).
  all: intros H; try discriminate H; injection H as <-.
  all: split; [reflexivity|].
  all: eexists; split;
    [repeat (eapply Forall2_cons; [reflexivity|]); apply Forall2_nil|].
  all: split; [repeat constructor | reflexivity].
Qed.

End Templates.

(* ====================================================================== *)
(** ** Page-level actions, the first strategy, the clock                   *)
(* ====================================================================== *)

Section PageLevel.

Variable W : Type.
Variable eng : Engine W.
Variable py : Python.

(** The one call a page-level action makes: the actions that need no
    element, with the fields they require present. *)
Definition page_call_of (a : Action) : option PageCall :=
  match type a with
  | NAVIGATE =>
      if truthy (value a) then Some (Goto (py_str py (value a))) else None
  | EVALUATE =>
      if truthy (value a) then Some (EvaluateJs (py_str py (value a))) else None
  | EXTRACT_TEXT | GET_HTML =>
      if truthy (selector a) then None else Some Content
  | SCROLL =>
      if is_None (value a) then
        Some (EvaluateJs "window.scrollTo(0, document.body.scrollHeight)")
      else
        match py_int py (value a) with
        | Ok pixels =>
            Some (EvaluateJs ("window.scrollBy(0, " ++ str_of_Z pixels ++ ")"))
        | Raise _ => None
        end
  | GET_TITLE => Some Title
  | GO_BACK => Some GoBack
  | GO_FORWARD => Some GoForward
  | RELOAD => Some Reload
  | _ => None
  end.

(** X18: an action that works on the page as a whole makes exactly one
    call, on the page, looks up no element, and succeeds exactly when that
    call returns. *)
Theorem page_level_action_makes_one_call :
  forall (self : BrowserController) (a : Action) (s : Sys W) (h : Handle)
         (c : PageCall),
    page self = Some h ->
    page_call_of a = Some c ->
    let out := execute_action eng py self a s in
    let answer := page_call eng h c (world s) in
    fst out = mkSys (fst answer) (trace s ++ [EvPage c (snd answer)]) /\
    (success (snd (snd out)) = true <-> exists v, snd answer = Ok v).
Proof.
  intros self a s h c Hpage Hcall.
  unfold execute_action, dispatch. unfold page_call_of in Hcall.
  destruct (type a); try discriminate Hcall.
  all: unfold_helpers; unfold_monad; rewrite Hpage.
  all: repeat match type of Hcall with
              | context [if ?b then _ else _] => destruct b
              | context [match ?x with Ok _ => _ | Raise _ => _ end] =>
                  destruct x
              end; try discriminate Hcall; injection Hcall as <-.
  all: cbn.
  all: match goal with
       | |- context [page_call eng ?h0 ?c0 (world ?s0)] =>
           destruct (page_call eng h0 c0 (world s0)) as [w [v|e]]
       end; cbn.
  all: split; [reflexivity|].
  all: split;
    [intros H; first [eexists; reflexivity | discriminate H]
    |intros (v' & H); first [reflexivity | discriminate H]].
Qed.

(** X19: with [auto], when the element is visible under the CSS reading
    of the selector, that reading is the only one tried: one wait, and the
    CSS locator is the answer. *)
Theorem css_match_ends_the_search :
  forall (h : Handle) (selector timeout : JValue) (s : Sys W) (w : W)
         (v : JValue),
    let l := mkLocator h (QSelector ("css=" ++ py_str py selector)) in
    loc_call eng l (WaitForVisible timeout) (world s) = (w, Ok v) ->
    find_element eng py (Some h) selector AUTO timeout s =
    (mkSys w (trace s ++ [EvLogTrying "css" selector;
                          EvLoc l (WaitForVisible timeout) (Ok v)]),
     Ok (Some l)).
Proof.
  intros h selector timeout s w v l H. subst l.
  unfold find_element, strategies, try_strategies, attempt, strategy_locator.
  unfold_monad. cbn. cbn in H. rewrite H. cbn.
  rewrite <- app_assoc. reflexivity.
Qed.

(** The clock of the outside never runs backwards over a call. *)
Definition clock_never_goes_back : Prop :=
  (forall h c w, (time_ms eng w <= time_ms eng (fst (page_call eng h c w)))%Z) /\
  (forall l c w, (time_ms eng w <= time_ms eng (fst (loc_call eng l c w)))%Z) /\
  (forall h w, (time_ms eng w <= time_ms eng (fst (page_screenshot eng h w)))%Z) /\
  (forall ms w, (time_ms eng w <= time_ms eng (sleep_ms eng ms w))%Z).

Ltac use_clock Hc :=
  destruct Hc as (Hpage & Hloc & Hshot & Hsleep);
  repeat match goal with
         | H : page_call eng ?h ?c ?w = (?w', _) |- _ =>
             generalize (Hpage h c w); rewrite H; cbn [fst]; intro; clear H
         | H : loc_call eng ?l ?c ?w = (?w', _) |- _ =>
             generalize (Hloc l c w); rewrite H; cbn [fst]; intro; clear H
         | H : page_screenshot eng ?h ?w = (?w', _) |- _ =>
             generalize (Hshot h w); rewrite H; cbn [fst]; intro; clear H
         end.

Lemma find_element_clock :
  clock_never_goes_back ->
  forall page selector st timeout (s : Sys W),
    (time_ms eng (world s)
     <= time_ms eng (world (fst (find_element eng py page selector st timeout s))))%Z.
Proof.
  intros Hc page selector st timeout s.
  destruct st, page;
    unfold find_element, strategies, try_strategies, attempt, strategy_locator,
      SelectorType_value, attr_error;
    unfold_monad; run_code.
  all: use_clock Hc; lia.
Qed.

Lemma dispatch_clock :
  clock_never_goes_back ->
  forall self a (f : Frame W),
    (time_ms eng (world (sys f))
     <= time_ms eng (world (sys (fst (dispatch eng py self a f)))))%Z.
Proof.
  intros Hc self a f. unfold dispatch.
  destruct (type a).
  all: unfold_helpers; unfold py_int.
  all: unfold_monad.
  all: run_code.
  all: repeat match goal with
              | H : find_element eng py ?p ?sel ?st ?t ?s0 = (?s1, _) |- _ =>
                  generalize (find_element_clock Hc p sel st t s0);
                  rewrite H; cbn [fst]; intro; clear H
              end.
  all: pose proof Hc as (_ & _ & _ & Hsl).
  all: try match goal with
           | |- context [sleep_ms eng ?ms ?w] => pose proof (Hsl ms w)
           end.
  all: use_clock Hc; cbn [world sys] in *; lia.
Qed.

(** X20: when the clock never runs backwards, the execution time of a
    result is not negative. *)
Theorem execution_time_is_not_negative :
  clock_never_goes_back ->
  forall (self : BrowserController) (a : Action) (s : Sys W),
    (0 <= execution_time_ms (snd (snd (execute_action eng py self a s))))%Z.
Proof.
  intros Hc self a s. unfold execute_action.
  pose proof (dispatch_clock Hc self a
                (mkFrame s (mkActionResult false a JNull None 0 None
                                           (now_iso eng (world s))))) as H.
  destruct (dispatch eng py self a _) as [f r]. cbn in *. lia.
Qed.

End PageLevel.

(* ====================================================================== *)
(** ** The session                                                         *)
(* ====================================================================== *)

Fixpoint init_scripts (evs : list Event) : nat :=
  match evs with
  | [] => 0
  | EvInitScript _ :: rest => S (init_scripts rest)
  | _ :: rest => init_scripts rest
  end.

(** No page is opened in [evs] before an init script has been added. *)
Fixpoint script_precedes_page (evs : list Event) : bool :=
  match evs with
  | [] => true
  | EvInitScript _ :: _ => true
  | EvNewPage _ :: _ => false
  | _ :: rest => script_precedes_page rest
  end.

Definition env_event (ev : Event) : bool :=
  match ev with
  | EvEnv _ => true
  | _ => false
  end.

Lemma init_scripts_app a b :
  init_scripts (a ++ b) = init_scripts a + init_scripts b.
Proof.
  induction a as [|ev a IH]; [reflexivity|].
  destruct ev; cbn; rewrite ?IH; reflexivity.
Qed.

Lemma env_events_have_no_script a :
  forallb env_event a = true -> init_scripts a = 0.
Proof.
  induction a as [|ev a IH]; [reflexivity|].
  destruct ev; cbn; try discriminate. exact IH.
Qed.

Lemma env_events_do_not_open_a_page a b :
  forallb env_event a = true ->
  script_precedes_page (a ++ b) = script_precedes_page b.
Proof.
  induction a as [|ev a IH]; [reflexivity|].
  destruct ev; cbn; try discriminate. exact IH.
Qed.

Lemma env_events_precede a :
  forallb env_event a = true -> script_precedes_page a = true.
Proof.
  intros H. rewrite <- (app_nil_r a).
  now rewrite (@env_events_do_not_open_a_page a [] H).
Qed.

Lemma bind_unfold {S A B} (m : M S A) (k : A -> M S B) (s : S) :
  bind m k s = match m s with
               | (s', Ok a) => k a s'
               | (s', Raise e) => (s', Raise e)
               end.
Proof. reflexivity. Qed.

Section Session.

Variable W : Type.
Variable eng : Engine W.

(** A step of [launch] that only reads the environment: it writes no field
    of the controller. *)
Definition quiet {A} (m : M (Ctl W) A) : Prop :=
  forall c,
    ctl_self (fst (m c)) = ctl_self c /\
    exists evs, added (ctl_sys c) (ctl_sys (fst (m c))) evs /\
                forallb env_event evs = true.

Lemma quiet_ret {A} (a : A) : quiet (ret a).
Proof.
  intros c. split; [reflexivity|]. exists []. split; [|reflexivity].
  unfold added. cbn. now rewrite app_nil_r.
Qed.

Lemma quiet_liftR {A} (x : Res A) : quiet (liftR x).
Proof.
  intros c. split; [reflexivity|]. exists []. split; [|reflexivity].
  unfold added. cbn. now rewrite app_nil_r.
Qed.

Lemma quiet_bind {A B} (m : M (Ctl W) A) (k : A -> M (Ctl W) B) :
  quiet m -> (forall a, quiet (k a)) -> quiet (bind m k).
Proof.
  intros Hm Hk c. unfold bind.
  destruct (Hm c) as (Hs & evs & Hadd & Hev).
  destruct (m c) as [c1 [a|e]]; cbn in *.
  - destruct (Hk a c1) as (Hs' & evs' & Hadd' & Hev').
    split; [congruence|]. exists (evs ++ evs'). unfold added in *.
    rewrite Hadd', Hadd, app_assoc, forallb_app, Hev, Hev'. auto.
  - split; [assumption|]. exists evs. auto.
Qed.

Lemma quiet_try_except {A} (m : M (Ctl W) A) (h : Exc -> M (Ctl W) A) :
  quiet m -> (forall e, quiet (h e)) -> quiet (try_except m h).
Proof.
  intros Hm Hh c. unfold try_except.
  destruct (Hm c) as (Hs & evs & Hadd & Hev).
  destruct (m c) as [c1 [a|e]]; cbn in *.
  - split; [assumption|]. exists evs. auto.
  - destruct (Hh e c1) as (Hs' & evs' & Hadd' & Hev').
    split; [congruence|]. exists (evs ++ evs'). unfold added in *.
    rewrite Hadd', Hadd, app_assoc, forallb_app, Hev, Hev'. auto.
Qed.

Lemma quiet_env_default name default : quiet (env_default eng name default).
Proof.
  unfold env_default. apply quiet_bind; [|intros; apply quiet_ret].
  intros c. unfold outside, call.
  destruct (env_get eng name (world (ctl_sys c))) as [w r]. cbn.
  split; [reflexivity|]. exists [EvEnv name]. split; reflexivity.
Qed.

Lemma quiet_proxy_flag proxy key : quiet (@proxy_flag W proxy key).
Proof.
  unfold proxy_flag. destruct (truthy proxy); [|apply quiet_ret].
  apply quiet_bind; [apply quiet_liftR | intros; apply quiet_ret].
Qed.

Lemma quiet_apify proxy : quiet (apify_proxy_config eng proxy).
Proof.
  unfold apify_proxy_config.
  apply quiet_bind; [apply quiet_env_default | intros url].
  apply quiet_bind; [apply quiet_env_default | intros pass].
  destruct (negb _); [|apply quiet_ret].
  apply quiet_bind; [apply quiet_liftR | intros groups].
  apply quiet_bind; [|intros; apply quiet_ret].
  destruct (truthy groups); [apply quiet_liftR | apply quiet_ret].
Qed.

(** The two parts of [launch] after the driver has started: the proxy
    configuration, and everything from the launch of the browser on. *)
Definition launch_proxy (proxy : JValue) (use_apify : bool) : M (Ctl W) JValue :=
  if use_apify then
    try_except (apify_proxy_config eng proxy) (fun _ => ret JNull)
  else
    custom <- proxy_flag proxy "custom_proxy_url" ;;
    if custom then
      url <- liftR (py_get proxy "custom_proxy_url" JNull) ;;
      ret (JObj [("server", url)])
    else ret JNull.

Definition launch_rest (headless stealth_mode proxy_config : JValue)
  : M (Ctl W) unit :=
  let launch_args :=
    [("headless", headless);
     ("args", JList [JStr "--disable-blink-features=AutomationControlled";
                     JStr "--disable-dev-shm-usage"])]
    ++ opt_entry "proxy" (truthy proxy_config) proxy_config in
  self <- get ;;
  b <- deref (playwright (ctl_self self)) "chromium" (fun h =>
         outside (call (browser_launch eng (browser_type (ctl_self self))
                                       (JObj launch_args) h)
                       (EvLaunch (browser_type (ctl_self self))
                                 (JObj launch_args)))) ;;
  assign (set_browser b) ;;;
  let context_options :=
    [("viewport", JObj [("width", JInt 1920); ("height", JInt 1080)]);
     ("user_agent", JStr user_agent);
     ("locale", JStr "en-US");
     ("timezone_id", JStr "America/New_York")]
    ++ opt_entry "proxy" (truthy proxy_config) proxy_config in
  cx <- outside (call (new_context eng (JObj context_options) b)
                      (EvNewContext (JObj context_options))) ;;
  assign (set_context cx) ;;;
  (if truthy stealth_mode
   then outside (call (add_init_script eng cx) EvInitScript)
   else ret tt) ;;;
  pg <- outside (call (new_page eng cx) EvNewPage) ;;
  assign (set_page pg) ;;;
  c <- get ;;
  assign (set_start_time (now_iso eng (world (ctl_sys c)))).

Lemma launch_in_parts headless proxy stealth_mode :
  launch eng headless proxy stealth_mode =
  try_except
    (pw <- outside (call (playwright_start eng) EvStart) ;;
     assign (set_playwright pw) ;;;
     use_apify <- proxy_flag proxy "use_apify_proxy" ;;
     proxy_config <- launch_proxy proxy use_apify ;;
     launch_rest headless stealth_mode proxy_config)
    (fun e => raise e).
Proof. reflexivity. Qed.

Lemma quiet_launch_proxy proxy use_apify : quiet (launch_proxy proxy use_apify).
Proof.
  unfold launch_proxy. destruct use_apify.
  - apply quiet_try_except; [apply quiet_apify | intros; apply quiet_ret].
  - apply quiet_bind; [apply quiet_proxy_flag | intros custom].
    destruct custom; [|apply quiet_ret].
    apply quiet_bind; [apply quiet_liftR | intros; apply quiet_ret].
Qed.

(** What the state of a launch must satisfy when it ends with [x]. *)
Definition launch_outcome (b : BrowserType) (stealth_mode : JValue)
           (c : BrowserController) (x : Res unit) (evs : list Event) : Prop :=
  browser_type c = b /\ action_count c = 0 /\
  match x with
  | Ok _ =>
      playwright c <> None /\ browser c <> None /\ context c <> None /\
      page c <> None /\ start_time c <> None
  | Raise _ =>
      page c = None /\ start_time c = None /\
      (context c <> None -> browser c <> None) /\
      (browser c <> None -> playwright c <> None)
  end /\
  if truthy stealth_mode
  then init_scripts evs <= 1 /\ script_precedes_page evs = true
  else init_scripts evs = 0.

Lemma launch_rest_effect headless stealth_mode proxy_config s pw b :
  let out := launch_rest headless stealth_mode proxy_config
                         (mkCtl s (set_playwright pw (new_controller b))) in
  exists evs,
    added s (ctl_sys (fst out)) evs /\
    launch_outcome b stealth_mode (ctl_self (fst out)) (snd out) evs.
Proof.
  unfold launch_rest, outside, assign, deref, opt_entry, launch_outcome.
  unfold_monad.
  destruct (truthy stealth_mode), (truthy proxy_config); run_code.
  all: unfold added; cbn [trace]; rewrite <- ?app_assoc.
  all: eexists; split; [reflexivity|].
  all: cbn; repeat split; try discriminate; try lia; try congruence.
Qed.

Lemma start_step (c : Ctl W) :
  outside (call (playwright_start eng) EvStart) c =
  let (w, r) := playwright_start eng (world (ctl_sys c)) in
  (mkCtl (mkSys w (trace (ctl_sys c) ++ [EvStart r])) (ctl_self c), r).
Proof.
  unfold outside, call. destruct (playwright_start eng _); reflexivity.
Qed.

Lemma assign_step (g : BrowserController -> BrowserController) (c : Ctl W) :
  assign g c = (mkCtl (ctl_sys c) (g (ctl_self c)), Ok tt).
Proof. reflexivity. Qed.

(** X17: [launch] on a fresh controller acquires driver, browser, context
    and page in that order.  When it returns, all four and the start time
    are set; when it raises, there is no page and no start time, and a
    context implies a browser, a browser the driver, so that [close] finds
    what there is to release.  In stealth mode the init script is added at
    most once and before the page is opened; otherwise never. *)
Theorem launch_acquires_in_order :
  forall (headless proxy stealth_mode : JValue) (s : Sys W) (b : BrowserType),
    let out := launch eng headless proxy stealth_mode
                      (mkCtl s (new_controller b)) in
    exists evs,
      added s (ctl_sys (fst out)) evs /\
      launch_outcome b stealth_mode (ctl_self (fst out)) (snd out) evs.
Proof.
  intros headless proxy stealth_mode s b. cbv zeta.
  rewrite launch_in_parts. unfold try_except.
  rewrite bind_unfold, start_step. cbn [ctl_sys ctl_self world trace].
  destruct (playwright_start eng (world s)) as [w [pw|e]].
  2: { cbn. exists [EvStart (Raise e)]. split; [reflexivity|].
       unfold launch_outcome. cbn. repeat split; try tauto.
       destruct (truthy stealth_mode); cbn; auto. }
  rewrite bind_unfold, assign_step. cbn [ctl_sys ctl_self].
  rewrite bind_unfold.
  set (c1 := mkCtl (mkSys w (trace s ++ [EvStart (Ok pw)]))
                   (set_playwright pw (new_controller b))).
  destruct (quiet_proxy_flag proxy "use_apify_proxy" c1)
    as (Hs1 & evs1 & Hadd1 & Hev1).
  destruct (proxy_flag proxy "use_apify_proxy" c1) as [c2 [use|e]];
    cbn [fst snd] in *.
  2: { cbn. exists ([EvStart (Ok pw)] ++ evs1). split.
       - unfold added in *. rewrite Hadd1. subst c1. cbn.
         now rewrite <- app_assoc.
       - rewrite Hs1. unfold launch_outcome. subst c1. cbn.
         repeat split; try tauto; try discriminate.
         rewrite (@env_events_have_no_script _ Hev1).
         destruct (truthy stealth_mode); cbn; auto using env_events_precede. }
  rewrite bind_unfold.
  destruct (quiet_launch_proxy proxy use c2) as (Hs2 & evs2 & Hadd2 & Hev2).
  destruct (launch_proxy proxy use c2) as [c3 [pc|e]]; cbn [fst snd] in *.
  2: { cbn. exists ([EvStart (Ok pw)] ++ evs1 ++ evs2). split.
       - unfold added in *. rewrite Hadd2, Hadd1. subst c1. cbn.
         now rewrite <- !app_assoc.
       - rewrite Hs2, Hs1. unfold launch_outcome. subst c1. cbn.
         repeat split; try tauto; try discriminate.
         rewrite init_scripts_app, (@env_events_have_no_script _ Hev1),
           (@env_events_have_no_script _ Hev2).
         rewrite (@env_events_do_not_open_a_page _ _ Hev1).
         destruct (truthy stealth_mode); cbn; auto using env_events_precede. }
  destruct c3 as [s3 self3]. cbn [ctl_self ctl_sys] in *.
  assert (Hself : self3 = set_playwright pw (new_controller b))
    by (rewrite Hs2, Hs1; reflexivity).
  clear Hs2. subst self3.
  destruct (launch_rest_effect headless stealth_mode pc s3 pw b)
    as (evs3 & Hadd3 & Hout).
  destruct (launch_rest headless stealth_mode pc _) as [c4 x].
  cbn [fst snd] in *.
  assert (Hfinal : exists evs,
             added s (ctl_sys c4) evs /\
             launch_outcome b stealth_mode (ctl_self c4) x evs).
  { exists ([EvStart (Ok pw)] ++ evs1 ++ evs2 ++ evs3). split.
    - unfold added in *. rewrite Hadd3, Hadd2, Hadd1. subst c1. cbn.
      now rewrite <- !app_assoc.
    - unfold launch_outcome in *.
      destruct Hout as (Hb & Hc & Hx & Hst).
      repeat split; auto.
      cbn [List.app init_scripts script_precedes_page].
      rewrite !init_scripts_app, (@env_events_have_no_script _ Hev1),
        (@env_events_have_no_script _ Hev2).
      rewrite (@env_events_do_not_open_a_page _ _ Hev1),
        (@env_events_do_not_open_a_page _ _ Hev2).
      exact Hst. }
  destruct x; exact Hfinal.
Qed.

End Session.

(* ====================================================================== *)
(** ** The further theorems at work on the small world                     *)
(* ====================================================================== *)

Module DemoMore.

Import Demo.
Import DemoRun.

Definition click_no_selector : Action :=
  mkAction CLICK JNull JNull AUTO (JInt 10000) JNull JNull.

Definition wait_two_seconds : Action :=
  mkAction WAIT JNull (JStr "2000") AUTO (JInt 10000) JNull JNull.

Definition heading_attributes : Action :=
  mkAction EXTRACT_ATTRIBUTES (JStr "h1") JNull AUTO (JInt 10000) JNull JNull.

Lemma rejected_action_touches_nothing_witness :
  rejected click_no_selector = true /\
  fst (execute_action engine python (ctl_self launched) click_no_selector
                      (ctl_sys launched)) = ctl_sys launched /\
  success (snd (snd (execute_action engine python (ctl_self launched)
                                    click_no_selector (ctl_sys launched))))
  = false.
Proof.
  split; [reflexivity|].
  destruct (@rejected_action_touches_nothing World engine python
              (ctl_self launched) click_no_selector (ctl_sys launched)
              eq_refl) as (H1 & _ & H2 & _).
  split; assumption.
Defined.

Lemma wait_only_sleeps_witness :
  type wait_two_seconds = WAIT /\
  ((exists ms,
       is_None (value wait_two_seconds) = false /\
       py_int python (value wait_two_seconds) = Ok ms /\
       success (snd (snd (execute_action engine python (ctl_self launched)
                                         wait_two_seconds (ctl_sys launched))))
       = true /\
       fst (execute_action engine python (ctl_self launched) wait_two_seconds
                           (ctl_sys launched)) =
       mkSys (sleep_ms engine ms (world (ctl_sys launched)))
             (trace (ctl_sys launched) ++ [EvSleep ms])) \/
   (success (snd (snd (execute_action engine python (ctl_self launched)
                                      wait_two_seconds (ctl_sys launched))))
    = false /\
    fst (execute_action engine python (ctl_self launched) wait_two_seconds
                        (ctl_sys launched)) = ctl_sys launched)).
Proof.
  split; [reflexivity|].
  exact (@wait_only_sleeps World engine python (ctl_self launched)
           wait_two_seconds (ctl_sys launched) eq_refl).
Defined.

Lemma screenshot_result_shape_witness :
  type take_screenshot = SCREENSHOT /\
  match error (snd (snd (execute_action engine python (ctl_self launched)
                                        take_screenshot (ctl_sys launched))))
  with
  | None =>
      exists bytes,
        success (snd (snd (execute_action engine python (ctl_self launched)
                                          take_screenshot (ctl_sys launched))))
        = true /\
        screenshot_base64
          (snd (snd (execute_action engine python (ctl_self launched)
                                    take_screenshot (ctl_sys launched))))
        = Some (b64encode bytes) /\
        output (snd (snd (execute_action engine python (ctl_self launched)
                                         take_screenshot (ctl_sys launched))))
        = JStr ("Screenshot captured (" ++ str_of_nat (List.length bytes)
                                        ++ " bytes)") /\
        trace (fst (execute_action engine python (ctl_self launched)
                                   take_screenshot (ctl_sys launched)))
        = trace (ctl_sys launched) ++ [EvScreenshot (Ok bytes)]
  | Some msg =>
      success (snd (snd (execute_action engine python (ctl_self launched)
                                        take_screenshot (ctl_sys launched))))
      = false /\
      screenshot_base64
        (snd (snd (execute_action engine python (ctl_self launched)
                                  take_screenshot (ctl_sys launched))))
      = None /\
      exists m, msg = ("Screenshot failed: " ++ m)%string
  end.
Proof.
  split; [reflexivity|].
  exact (@screenshot_result_shape World engine python (ctl_self launched)
           take_screenshot (ctl_sys launched) eq_refl).
Defined.

Lemma heading_attributes_succeed :
  success (snd (snd (execute_action engine python (ctl_self launched)
                                    heading_attributes (ctl_sys launched))))
  = true.
Proof. vm_compute. reflexivity. Qed.

Lemma extract_attributes_record_witness :
  type heading_attributes = EXTRACT_ATTRIBUTES /\
  exists l before v_text v_class v_id v_href v_src v_value v_placeholder,
    output (snd (snd (execute_action engine python (ctl_self launched)
                                     heading_attributes (ctl_sys launched))))
    = JObj [("text", v_text); ("class", v_class); ("id", v_id);
            ("href", v_href); ("src", v_src); ("value", v_value);
            ("placeholder", v_placeholder)] /\
    trace (fst (execute_action engine python (ctl_self launched)
                               heading_attributes (ctl_sys launched)))
    = before ++ [EvLoc l TextContent (Ok v_text);
                 EvLoc l (GetAttribute "class") (Ok v_class);
                 EvLoc l (GetAttribute "id") (Ok v_id);
                 EvLoc l (GetAttribute "href") (Ok v_href);
                 EvLoc l (GetAttribute "src") (Ok v_src);
                 EvLoc l (GetAttribute "value") (Ok v_value);
                 EvLoc l (GetAttribute "placeholder") (Ok v_placeholder)].
Proof.
  split; [reflexivity|].
  exact (@extract_attributes_record World engine python (ctl_self launched)
           heading_attributes (ctl_sys launched) eq_refl
           heading_attributes_succeed).
Defined.

Definition teleport : JValue := JObj [("type", JStr "teleport")].

Definition navigate_entry : JValue :=
  JObj [("type", JStr "navigate"); ("value", JStr "https://example.com")].

Definition navigate_parsed : Action :=
  mkAction NAVIGATE JNull (JStr "https://example.com") AUTO (JInt 10000)
           JNull JNull.

Definition not_an_action_type : Exc :=
  mkExc ValueError "'teleport' is not a valid ActionType".

Lemma unparseable_entry_stops_the_loop_witness :
  _parse_action python teleport = Raise not_an_action_type /\
  exists r' rs,
    (forall rest,
        run_actions engine python 3 1 (navigate_entry :: teleport :: rest)
                    (mkRun (ctl_sys launched)
                           (set_controller (ctl_self launched) new_actor))
        = (r', Raise not_an_action_type)) /\
    results (run_self r') = rs /\
    map action rs = [navigate_parsed].
Proof.
  split; [reflexivity|].
  destruct (@unparseable_entry_stops_the_loop World engine python 3 1
              [navigate_entry] [navigate_parsed] teleport not_an_action_type
              (mkRun (ctl_sys launched)
                     (set_controller (ctl_self launched) new_actor))
              (ctl_self launched))
    as (r' & rs & Hrun & Hres & Hacts & _).
  - constructor; [reflexivity | constructor].
  - reflexivity.
  - reflexivity.
  - exists r', rs. repeat split; assumption.
Defined.

Definition click_by_id : JValue :=
  JObj [("type", JStr "click"); ("selector", JStr "h1");
        ("selector_type", JStr "id")].

Definition three_entries : list JValue :=
  [navigate_entry; click_by_id; navigate_entry].

Definition not_a_selector_type : Exc :=
  mkExc ValueError "'id' is not a valid SelectorType".

Lemma unparseable_entry_aborts_the_run_witness :
  exists final rs inners announced closing,
    run engine python (JObj [("actions", JList three_entries)])
        (mkRun sys0 new_actor) = (final, Raise not_a_selector_type) /\
    results (run_self final) = rs /\
    map action rs = [navigate_parsed] /\
    List.length rs = 1 /\
    List.length rs < 3 /\
    List.length inners = List.length rs /\
    Forall (fun inner => forallb action_event inner = true) inners /\
    trace (run_sys final) =
      trace (ctl_sys launched)
        ++ segments 3 1 rs inners
        ++ announced
        ++ [EvPush (failure_record not_a_selector_type (run_self final))]
        ++ closing /\
    (announced = [] \/ exists t, announced = [EvLogExecuting 2 3 t]) /\
    forallb release_event closing = true.
Proof.
  apply (@unparseable_entry_aborts_the_run World engine python
           (JObj [("actions", JList three_entries)])
           [navigate_entry] [navigate_parsed] click_by_id not_a_selector_type
           [navigate_entry] demo_settings sys0
           (ctl_sys launched) (ctl_self launched)).
  - vm_compute. reflexivity.
  - vm_compute. reflexivity.
  - vm_compute. reflexivity.
  - repeat constructor.
  - reflexivity.
Defined.

Definition search_params : JValue := JObj [("search_query", JStr "rocq")].

Definition search_actions : list JValue :=
  Eval vm_compute in
    match get_template python (JStr "google_search") search_params with
    | Ok l => l
    | Raise _ => []
    end.

Lemma search_actions_generated :
  get_template python (JStr "google_search") search_params = Ok search_actions.
Proof. vm_compute. reflexivity. Qed.

Lemma generated_actions_are_runnable_witness :
  get_template python (JStr "google_search") search_params = Ok search_actions /\
  _validate_input [("actions", JList search_actions)] = Ok tt /\
  exists acts,
    Forall2 (fun d a => _parse_action python d = Ok a) search_actions acts /\
    Forall (fun a => selector_type a = AUTO) acts /\
    map type acts = NAVIGATE :: removelast (tl (map type acts)) ++ [SCREENSHOT].
Proof.
  split; [exact search_actions_generated|].
  exact (@generated_actions_are_runnable python (JStr "google_search")
           search_params search_actions search_actions_generated).
Defined.

Lemma launched_page : page (ctl_self launched) = Some 4.
Proof. vm_compute. reflexivity. Qed.

Lemma page_level_action_makes_one_call_witness :
  page (ctl_self launched) = Some 4 /\
  page_call_of python navigate_parsed = Some (Goto "https://example.com") /\
  fst (execute_action engine python (ctl_self launched) navigate_parsed
                      (ctl_sys launched)) =
  mkSys (fst (page_call engine 4 (Goto "https://example.com")
                        (world (ctl_sys launched))))
        (trace (ctl_sys launched)
           ++ [EvPage (Goto "https://example.com")
                      (snd (page_call engine 4 (Goto "https://example.com")
                                      (world (ctl_sys launched))))]).
Proof.
  split; [exact launched_page|]. split; [reflexivity|].
  exact (proj1 (@page_level_action_makes_one_call World engine python
                  (ctl_self launched) navigate_parsed (ctl_sys launched) 4
                  (Goto "https://example.com") launched_page eq_refl)).
Defined.

Lemma css_match_ends_the_search_witness :
  loc_call engine (mkLocator 4 (QSelector "css=h1"))
           (WaitForVisible (JInt 10000)) (world sys0) = (1, Ok JNull) /\
  find_element engine python (Some 4) (JStr "h1") AUTO (JInt 10000) sys0 =
  (mkSys 1 [EvLogTrying "css" (JStr "h1");
            EvLoc (mkLocator 4 (QSelector "css=h1"))
                  (WaitForVisible (JInt 10000)) (Ok JNull)],
   Ok (Some (mkLocator 4 (QSelector "css=h1")))).
Proof.
  split; [reflexivity|].
  exact (@css_match_ends_the_search World engine python 4 (JStr "h1")
           (JInt 10000) sys0 1 JNull eq_refl).
Defined.

Lemma engine_clock : clock_never_goes_back engine.
Proof.
  repeat split; intros; cbn; unfold demo_page_call, demo_loc_call; cbn; lia.
Qed.

Lemma execution_time_is_not_negative_witness :
  clock_never_goes_back engine /\
  (0 <= execution_time_ms
          (snd (snd (execute_action engine python (ctl_self launched)
                                    click_missing (ctl_sys launched)))))%Z.
Proof.
  split; [exact engine_clock|].
  exact (@execution_time_is_not_negative World engine python engine_clock
           (ctl_self launched) click_missing (ctl_sys launched)).
Defined.

End DemoMore.
